(** * run_model_ollama.py: a shallow embedding and its properties

    The script drives a local Ollama daemon: an HTTP client
    ([OllamaClient]), a registrar for local GGUF files, a directory search,
    the setup resolver [check_and_setup_model], two generation functions, the
    interactive loop and [main].

    Everything the script does to the outside (HTTP requests, files, the
    [ollama] command, the chat library, the terminal) is recorded as a list of
    [event]s; everything the outside answers is read from a [world], whose
    answers may depend on the whole history of events so far.  Python
    exceptions are the [Raise] outcome of a computation. *)

From Stdlib Require Import List String Ascii ZArith Bool Lia.
From Stdlib Require Import Floats.SpecFloat.
Import ListNotations.
Set Warnings "-register-all".
Local Open Scope string_scope.
Local Open Scope Z_scope.

(** ** Python strings (ASCII text) *)

Module Str.

Definition chr (n : nat) : string := String (ascii_of_nat n) EmptyString.

(** The two characters a Rocq literal cannot hold. *)
Definition nl : string := chr 10.
Definition dquote : string := chr 34.

(** [s.startswith(pre)] *)
Fixpoint startswith (s pre : string) : bool :=
  match pre, s with
  | EmptyString, _ => true
  | String _ _, EmptyString => false
  | String c pre', String d s' => Ascii.eqb c d && startswith s' pre'
  end.

(** [s.endswith(suf)] *)
Fixpoint endswith (s suf : string) : bool :=
  match s with
  | EmptyString => String.eqb suf EmptyString
  | String _ s' => String.eqb s suf || endswith s' suf
  end.

(** [needle in hay] on two strings: substring search. *)
Fixpoint contains (hay needle : string) : bool :=
  startswith hay needle ||
  match hay with
  | EmptyString => false
  | String _ hay' => contains hay' needle
  end.

(** Code points below 128 for which [str.isspace] holds. *)
Definition isspace (c : ascii) : bool :=
  let n := nat_of_ascii c in
  ((9 <=? n) && (n <=? 13) || (28 <=? n) && (n <=? 32))%nat.

Fixpoint lstrip (s : string) : string :=
  match s with
  | EmptyString => EmptyString
  | String c s' => if isspace c then lstrip s' else s
  end.

Fixpoint rstrip (s : string) : string :=
  match s with
  | EmptyString => EmptyString
  | String c s' =>
      match rstrip s' with
      | EmptyString => if isspace c then EmptyString else String c EmptyString
      | r => String c r
      end
  end.

(** [s.strip()] *)
Definition strip (s : string) : string := rstrip (lstrip s).

Definition lower_char (c : ascii) : ascii :=
  let n := nat_of_ascii c in
  if ((65 <=? n) && (n <=? 90))%nat then ascii_of_nat (n + 32) else c.

(** [s.lower()] *)
Fixpoint lower (s : string) : string :=
  match s with
  | EmptyString => EmptyString
  | String c s' => String (lower_char c) (lower s')
  end.

(** [c * n] for a one-character string, as in ["="*50]. *)
Fixpoint repeat (c : string) (n : nat) : string :=
  match n with
  | O => EmptyString
  | S n' => c ++ repeat c n'
  end.

(** Truth value of a string: non-empty. *)
Definition truthy (s : string) : bool :=
  match s with EmptyString => false | _ => true end.

End Str.

(** ** [posixpath]: the three path functions the script calls *)

Module PosixPath.

Definition sep : ascii := "/"%char.

(** Splits at the last slash: [Some (p[:i], p[i:])] with
    [i = p.rfind('/') + 1], or [None] when [p] has no slash. *)
Fixpoint rsplit (p : string) : option (string * string) :=
  match p with
  | EmptyString => None
  | String c r =>
      match rsplit r with
      | Some (h, t) => Some (String c h, t)
      | None =>
          if Ascii.eqb c sep then Some (String c EmptyString, r) else None
      end
  end.

(** [os.path.basename(p)]: [p[i:]]. *)
Definition basename (p : string) : string :=
  match rsplit p with
  | Some (_, t) => t
  | None => p
  end.

Fixpoint all_sep (s : string) : bool :=
  match s with
  | EmptyString => true
  | String c s' => Ascii.eqb c sep && all_sep s'
  end.

(** [head.rstrip('/')] *)
Fixpoint rstrip_sep (s : string) : string :=
  match s with
  | EmptyString => EmptyString
  | String c s' =>
      match rstrip_sep s' with
      | EmptyString => if Ascii.eqb c sep then EmptyString else String c EmptyString
      | r => String c r
      end
  end.

(** [os.path.dirname(p)]: [head = p[:i]], stripped of its trailing slashes
    unless it consists of slashes only. *)
Definition dirname (p : string) : string :=
  match rsplit p with
  | Some (h, _) => if all_sep h then h else rstrip_sep h
  | None => EmptyString
  end.

(** [os.path.join(a, b)] with two arguments. *)
Definition join (a b : string) : string :=
  if Str.startswith b "/" then b
  else if negb (Str.truthy a) || Str.endswith a "/" then a ++ b
  else a ++ "/" ++ b.

End PosixPath.

(** ** Python values and exceptions *)

(** The exception classes the script can meet.  [RequestException] stands for
    [requests.exceptions.RequestException] and its subclasses (connection
    errors, timeouts, broken streams, and what [response.json()] raises in
    recent versions of [requests]); [ValueError] covers
    [json.JSONDecodeError] and [UnicodeDecodeError].  [KeyboardInterrupt] and
    [SystemExit] derive from [BaseException] only. *)
Inductive exn :=
| RequestException (msg : string)
| ValueError (msg : string)
| KeyError (msg : string)
| TypeError (msg : string)
| AttributeError (msg : string)
| CalledProcessError (msg out err : string)
| OSError (msg : string)
| ResponseError (msg : string)
| EOFError
| OtherException (msg : string)
| KeyboardInterrupt
| SystemExit (code : Z).

Definition is_RequestException (e : exn) : bool :=
  match e with RequestException _ => true | _ => false end.

Definition is_CalledProcessError (e : exn) : bool :=
  match e with CalledProcessError _ _ _ => true | _ => false end.

Definition is_KeyboardInterrupt (e : exn) : bool :=
  match e with KeyboardInterrupt => true | _ => false end.

(** [isinstance(e, Exception)] *)
Definition is_Exception (e : exn) : bool :=
  match e with KeyboardInterrupt | SystemExit _ => false | _ => true end.

Inductive outcome (A : Type) :=
| Ret (a : A)
| Raise (e : exn).
Arguments Ret {A} a.
Arguments Raise {A} e.

(** JSON documents and the other dynamically typed values the script
    handles.  A [VDict] is an association list with distinct keys. *)
Inductive value :=
| VNone
| VBool (b : bool)
| VInt (z : Z)
| VFloat (f : spec_float)
| VStr (s : string)
| VList (l : list value)
| VDict (d : list (string * value)).

Module Py.

Definition is_str (k : string) (v : value) : bool :=
  match v with VStr s => String.eqb s k | _ => false end.

Fixpoint lookup (k : string) (d : list (string * value)) : option value :=
  match d with
  | [] => None
  | (k', v) :: d' => if String.eqb k' k then Some v else lookup k d'
  end.

Definition has_key (k : string) (d : list (string * value)) : bool :=
  match lookup k d with Some _ => true | None => false end.

(** [k in v] for a string [k]: key membership in a dict, element membership
    in a list, substring search in a string, [TypeError] otherwise. *)
Definition contains (k : string) (v : value) : outcome bool :=
  match v with
  | VDict d => Ret (has_key k d)
  | VList l => Ret (existsb (is_str k) l)
  | VStr s => Ret (Str.contains s k)
  | _ => Raise (TypeError "argument is not iterable")
  end.

(** [v[k]] for a string [k]. *)
Definition getitem (v : value) (k : string) : outcome value :=
  match v with
  | VDict d =>
      match lookup k d with
      | Some x => Ret x
      | None => Raise (KeyError k)
      end
  | VList _ | VStr _ => Raise (TypeError "indices must be integers")
  | _ => Raise (TypeError "object is not subscriptable")
  end.

(** [v.get(k, default)] *)
Definition get (v : value) (k : string) (default : value) : outcome value :=
  match v with
  | VDict d =>
      match lookup k d with
      | Some x => Ret x
      | None => Ret default
      end
  | _ => Raise (AttributeError "object has no attribute 'get'")
  end.

Fixpoint chars (s : string) : list value :=
  match s with
  | EmptyString => []
  | String c s' => VStr (String c EmptyString) :: chars s'
  end.

(** The items [for x in v] runs over. *)
Definition iter (v : value) : outcome (list value) :=
  match v with
  | VList l => Ret l
  | VDict d => Ret (map (fun kv => VStr (fst kv)) d)
  | VStr s => Ret (chars s)
  | _ => Raise (TypeError "object is not iterable")
  end.

(** Truth value, as [if v:] and [not v] test it. *)
Definition truthy (v : value) : bool :=
  match v with
  | VNone => false
  | VBool b => b
  | VInt z => negb (z =? 0)
  | VFloat f => match f with S754_zero _ => false | _ => true end
  | VStr s => Str.truthy s
  | VList l => match l with [] => false | _ => true end
  | VDict d => match d with [] => false | _ => true end
  end.

(** The results of functions that return [True], [False] or fall off
    their end ([None]). *)
Definition of_flag (r : option bool) : value :=
  match r with Some b => VBool b | None => VNone end.

(** An optional string argument ([None] or a [str]). *)
Definition truthy_opt (o : option string) : bool :=
  match o with Some s => Str.truthy s | None => false end.

(** The string of an optional argument that was found truthy. *)
Definition text (o : option string) : string :=
  match o with Some s => s | None => EmptyString end.

End Py.

(** ** Floats: IEEE 754 binary64, compared as Python compares them *)

Module Float.

Definition lt (a b : spec_float) : bool := SFltb a b.
Definition le (a b : spec_float) : bool := SFleb a b.

(** The doubles nearest to the decimal literals of the script. *)
Definition f0_1 : spec_float := S754_finite false 7205759403792794 (-56).
Definition f2_0 : spec_float := S754_finite false 4503599627370496 (-51).
Definition f0_9 : spec_float := S754_finite false 8106479329266893 (-53).
Definition f1_1 : spec_float := S754_finite false 4953959590107546 (-52).
Definition f0_7 : spec_float := S754_finite false 6305039478318694 (-53).

(** [min(a, b)]: [b] replaces [a] only when [b < a]. *)
Definition min (a b : spec_float) : spec_float := if lt b a then b else a.

(** [max(a, b)]: [b] replaces [a] only when [b > a]. *)
Definition max (a b : spec_float) : spec_float := if lt a b then b else a.

End Float.

(** [min(a, b)] on integers. *)
Definition int_min (a b : Z) : Z := if b <? a then b else a.

(** ** The outside world *)

Inductive fmt :=
| FS (s : string)      (** text *)
| FV (v : value)       (** [str(v)] of a value *)
| FE (e : exn).        (** [str(e)] of an exception *)

Record chat_request := mkChat {
  chat_model : string;
  chat_messages : list (string * string);
  opt_temperature : spec_float;
  opt_num_predict : Z;
  opt_top_p : spec_float;
  opt_top_k : Z;
  opt_repeat_penalty : spec_float;
  chat_stream : bool
}.

Inductive event :=
| Print (parts : list fmt) (end_ : string)
| Input (prompt : string)
| HttpGet (url : string) (timeout : option Z)
| HttpPost (url : string) (body : value)
| IsFile (path : string)
| FileWrite (path content : string)
| Subprocess (argv : list string)
| Walk (directory : string)
| Chat (req : chat_request).

Definition history := list event.

(** One item of [response.iter_lines()]: an empty keep-alive line, or a line
    with what [json.loads(line.decode('utf-8'))] makes of it. *)
Inductive line :=
| EmptyLine
| DataLine (parsed : outcome value).

(** An HTTP response: its status, what [response.json()] gives, the lines of
    its body and the exception that cuts the body short, if any. *)
Record response := mkResponse {
  status_code : Z;
  json : outcome value;
  iter_lines : list line;
  iter_lines_end : option exn
}.

(** A directory as [os.walk] sees it: sub-directories and plain files, in
    listing order. *)
Inductive dirtree :=
| Dir (dirs : list (string * dirtree)) (files : list string).

(** A streamed chat reply: the chunks and the exception that ends the
    iteration early, if any. *)
Record chat_chunks := mkChunks {
  chunks : list value;
  chunks_end : option exn
}.

Record world := mkWorld {
  http_get : history -> string -> outcome response;
  http_post : history -> string -> value -> outcome response;
  os_path_isfile : history -> string -> bool;
  open_write : history -> string -> string -> option exn;
  subprocess_run : history -> list string -> option exn;
  os_walk : history -> string -> option dirtree;
  ollama_chat : history -> chat_request -> outcome value;
  ollama_chat_stream : history -> chat_request -> outcome chat_chunks
}.

(** ** Computations: a trace of events and a result or an exception *)

Definition M (A : Type) : Type := world -> history -> list event * outcome A.

Definition ret {A} (a : A) : M A := fun _ _ => ([], Ret a).

Definition raise {A} (e : exn) : M A := fun _ _ => ([], Raise e).

Definition bind {A B} (m : M A) (f : A -> M B) : M B :=
  fun w h =>
    let (t1, r) := m w h in
    match r with
    | Ret a => let (t2, r2) := f a w (h ++ t1)%list in ((t1 ++ t2)%list, r2)
    | Raise e => (t1, Raise e)
    end.

(** [try: m  except <class> as e: handler e]; [handles] is the class test. *)
Definition try_except {A} (m : M A) (handles : exn -> bool)
    (handler : exn -> M A) : M A :=
  fun w h =>
    let (t1, r) := m w h in
    match r with
    | Ret a => (t1, Ret a)
    | Raise e =>
        if handles e
        then let (t2, r2) := handler e w (h ++ t1)%list in ((t1 ++ t2)%list, r2)
        else (t1, Raise e)
    end.

Definition lift {A} (o : outcome A) : M A := fun _ _ => ([], o).

Definition emit (e : event) : M unit := fun _ _ => ([e], Ret tt).

Declare Scope py_scope.
Delimit Scope py_scope with py.
Notation "x <- m ;; k" := (bind m (fun x => k))
  (at level 61, m at next level, right associativity) : py_scope.
Notation "m ;; k" := (bind m (fun _ => k))
  (at level 61, right associativity) : py_scope.
Local Open Scope py_scope.

(** [print(...)] and [print(..., end='')] *)
Definition print (parts : list fmt) : M unit := emit (Print parts Str.nl).
Definition print_end (parts : list fmt) (end_ : string) : M unit :=
  emit (Print parts end_).

Definition session_get (url : string) (timeout : option Z) : M response :=
  fun w h => ([HttpGet url timeout], http_get w h url).

Definition session_post (url : string) (body : value) : M response :=
  fun w h => ([HttpPost url body], http_post w h url body).

Definition isfile (path : string) : M bool :=
  fun w h => ([IsFile path], Ret (os_path_isfile w h path)).

(** [with open(path, 'w') as f: f.write(content)] *)
Definition write_file (path content : string) : M unit :=
  fun w h =>
    match open_write w h path content with
    | None => ([FileWrite path content], Ret tt)
    | Some e => ([], Raise e)
    end.

(** [subprocess.run(argv, capture_output=True, text=True, check=True)] *)
Definition run (argv : list string) : M unit :=
  fun w h =>
    ([Subprocess argv],
     match subprocess_run w h argv with None => Ret tt | Some e => Raise e end).

Definition chat (req : chat_request) : M value :=
  fun w h => ([Chat req], ollama_chat w h req).

Definition chat_streaming (req : chat_request) : M chat_chunks :=
  fun w h => ([Chat req], ollama_chat_stream w h req).

(** [try: m] followed by [except] clauses, tried in order; an exception no
    clause handles goes on to the caller. *)
Fixpoint find_clause {A} (clauses : list ((exn -> bool) * (exn -> M A)))
    (e : exn) : option (M A) :=
  match clauses with
  | [] => None
  | (handles, handler) :: rest =>
      if handles e then Some (handler e) else find_clause rest e
  end.

Definition try_ {A} (m : M A) (clauses : list ((exn -> bool) * (exn -> M A)))
    : M A :=
  fun w h =>
    let (t1, r) := m w h in
    match r with
    | Ret a => (t1, Ret a)
    | Raise e =>
        match find_clause clauses e with
        | Some k => let (t2, r2) := k w (h ++ t1)%list in ((t1 ++ t2)%list, r2)
        | None => (t1, Raise e)
        end
    end.

(** ** The script *)

Module OllamaClient.

(** [check_ollama_running]: the liveness probe. *)
Definition check_ollama_running (base_url : string) : M bool :=
  try_except
    (response <- session_get (base_url ++ "/api/tags") (Some 5) ;;
     ret (status_code response =? 200))
    is_RequestException
    (fun _ => ret false).

(** [[model["name"] for model in models]] *)
Fixpoint names_of (models : list value) : outcome (list value) :=
  match models with
  | [] => Ret []
  | model :: rest =>
      match Py.getitem model "name" with
      | Raise e => Raise e
      | Ret name =>
          match names_of rest with
          | Raise e => Raise e
          | Ret names => Ret (name :: names)
          end
      end
  end.

Definition list_models (base_url : string) : M (list value) :=
  try_except
    (response <- session_get (base_url ++ "/api/tags") None ;;
     if status_code response =? 200 then
       body <- lift (json response) ;;
       models <- lift (Py.get body "models" (VList [])) ;;
       items <- lift (Py.iter models) ;;
       lift (names_of items)
     else ret [])
    is_RequestException
    (fun e => print [FS "Error listing models: "; FE e] ;; ret []).

(** The loop both [pull_model] and [create_custom_model] run over the
    streamed lines; they differ in the message [done] only.  Falling off the
    end of the loop, the function returns [None]. *)
Fixpoint watch (done : string) (ls : list line) (stop : option exn)
    : M (option bool) :=
  match ls with
  | [] =>
      match stop with
      | None => ret None
      | Some e => raise e
      end
  | EmptyLine :: rest => watch done rest stop
  | DataLine parsed :: rest =>
      data <- lift parsed ;;
      has_status <- lift (Py.contains "status" data) ;;
      if has_status then
        status <- lift (Py.getitem data "status") ;;
        print [FS "Status: "; FV status] ;;
        watch done rest stop
      else
        completed <- lift (Py.contains "completed_at" data) ;;
        if completed then
          print [FS done] ;;
          ret (Some true)
        else watch done rest stop
  end.

Definition pull_model (base_url model_name : string) : M (option bool) :=
  try_except
    (print [FS "Pulling model: "; FS model_name] ;;
     print [FS "This may take several minutes depending on your internet connection..."] ;;
     response <- session_post (base_url ++ "/api/pull")
                   (VDict [("name", VStr model_name)]) ;;
     if status_code response =? 200 then
       watch "Model pulled successfully!"
             (iter_lines response) (iter_lines_end response)
     else
       print [FS "Failed to pull model: "; FV (VInt (status_code response))] ;;
       ret (Some false))
    is_RequestException
    (fun e => print [FS "Error pulling model: "; FE e] ;; ret (Some false)).

Definition modelfile_content (huggingface_model : string) : string :=
  "FROM " ++ huggingface_model ++ Str.nl ++
  "TEMPLATE " ++ Str.dquote ++ "{{ .Prompt }}" ++ Str.dquote ++ Str.nl.

Definition create_custom_model (base_url model_name huggingface_model : string)
    : M (option bool) :=
  try_except
    (print [FS "Creating custom model '"; FS model_name;
            FS "' from Hugging Face: "; FS huggingface_model] ;;
     print [FS "This may take several minutes..."] ;;
     response <- session_post (base_url ++ "/api/create")
                   (VDict [("name", VStr model_name);
                           ("modelfile",
                            VStr (modelfile_content huggingface_model))]) ;;
     if status_code response =? 200 then
       watch "Custom model created successfully!"
             (iter_lines response) (iter_lines_end response)
     else
       print [FS "Failed to create model: "; FV (VInt (status_code response))] ;;
       ret (Some false))
    is_RequestException
    (fun e => print [FS "Error creating custom model: "; FE e] ;;
              ret (Some false)).

End OllamaClient.

Definition exn_stdout (e : exn) : string :=
  match e with CalledProcessError _ out _ => out | _ => "" end.

Definition exn_stderr (e : exn) : string :=
  match e with CalledProcessError _ _ err => err | _ => "" end.

(** The first characters of the success message, byte for byte. *)
Definition check_mark : string :=
  Str.chr 195 ++ Str.chr 162 ++ Str.chr 197 ++ Str.chr 147 ++
  Str.chr 226 ++ Str.chr 128 ++ Str.chr 166.

Definition register_gguf_model (model_folder gguf_filename model_name : string)
    : M bool :=
  try_
    (let gguf_path := PosixPath.join model_folder gguf_filename in
     let modelfile_path := PosixPath.join model_folder "Modelfile" in
     found <- isfile gguf_path ;;
     if negb found then
       print [FS "GGUF file not found: "; FS gguf_path] ;;
       ret false
     else
       print [FS "Found GGUF file: "; FS gguf_path] ;;
       write_file modelfile_path ("FROM ./" ++ gguf_filename ++ Str.nl) ;;
       print [FS "Created Modelfile: "; FS modelfile_path] ;;
       print [FS "Registering model '"; FS model_name; FS "' with Ollama..."] ;;
       run ["ollama"; "create"; model_name; "-f"; modelfile_path] ;;
       print [FS check_mark; FS " Model '"; FS model_name;
              FS "' registered with Ollama"] ;;
       ret true)
    [ (is_CalledProcessError,
       fun e => print [FS "Error registering model: "; FE e] ;;
                print [FS "stdout: "; FS (exn_stdout e)] ;;
                print [FS "stderr: "; FS (exn_stderr e)] ;;
                ret false);
      (is_Exception,
       fun e => print [FS "Error: "; FE e] ;; ret false) ].

(** The two nested loops of [find_gguf_files] over what [os.walk] yields:
    the files of a directory first, then each sub-directory in turn. *)
Fixpoint walk_gguf (root : string) (t : dirtree) : list string :=
  match t with
  | Dir dirs files =>
      (map (PosixPath.join root)
           (filter (fun file => Str.endswith file ".gguf") files)
       ++ flat_map (fun d => match d with
                             | (name, sub) => walk_gguf (PosixPath.join root name) sub
                             end) dirs)%list
  end.

(** [os_walk] answers [None] for a path that does not exist (or is no
    directory): nothing is found then. *)
Definition find_gguf_files (directory : string) : M (list string) :=
  fun w h =>
    ([Walk directory],
     Ret match os_walk w h directory with
         | Some t => walk_gguf directory t
         | None => []
         end).

(** The [options] both generation functions send. *)
Definition chat_options (model_name prompt : string) (max_length : Z)
    (temperature : spec_float) (stream : bool) : chat_request :=
  {| chat_model := model_name;
     chat_messages := [("user", prompt)];
     opt_temperature := Float.max Float.f0_1 (Float.min Float.f2_0 temperature);
     opt_num_predict := int_min max_length 2048;
     opt_top_p := Float.f0_9;
     opt_top_k := 50;
     opt_repeat_penalty := Float.f1_1;
     chat_stream := stream |}.

Definition generate_text_ollama_lib (model_name prompt : string)
    (max_length : Z) (temperature : spec_float) : M value :=
  try_except
    (response <- chat (chat_options model_name prompt max_length temperature false) ;;
     message <- lift (Py.getitem response "message") ;;
     lift (Py.getitem message "content"))
    is_Exception
    (fun e => print [FS "Error generating text with ollama library: "; FE e] ;;
              ret VNone).

(** [full_response += content] *)
Definition str_add (full : string) (content : value) : outcome string :=
  match content with
  | VStr s => Ret (full ++ s)
  | _ => Raise (TypeError "can only concatenate str to str")
  end.

(** The body of the [for chunk in ...] loop. *)
Fixpoint consume (cs : list value) (stop : option exn) (full_response : string)
    : M string :=
  match cs with
  | [] =>
      match stop with
      | None => ret full_response
      | Some e => raise e
      end
  | chunk :: rest =>
      message <- lift (Py.getitem chunk "message") ;;
      content <- lift (Py.getitem message "content") ;;
      print_end [FV content] "" ;;
      full_response' <- lift (str_add full_response content) ;;
      consume rest stop full_response'
  end.

Definition generate_text_streaming_ollama_lib (model_name prompt : string)
    (max_length : Z) (temperature : spec_float) : M value :=
  try_except
    (print_end [FS "Response: "] "" ;;
     reply <- chat_streaming
                (chat_options model_name prompt max_length temperature true) ;;
     full_response <- consume (chunks reply) (chunks_end reply) "" ;;
     print [] ;;
     ret (VStr full_response))
    is_Exception
    (fun e => print [FS "Error generating text with ollama library: "; FE e] ;;
              ret VNone).

Definition check_and_setup_model (client model_name : string)
    (huggingface_model gguf_path : option string) : M (option bool) :=
  running <- OllamaClient.check_ollama_running client ;;
  if negb running then
    print [FS "Error: Ollama is not running!"] ;;
    print [FS "Please start Ollama first by running: ollama serve"] ;;
    ret (Some false)
  else
    available_models <- OllamaClient.list_models client ;;
    print [FS "Available models: "; FV (VList available_models)] ;;
    if existsb (Py.is_str model_name) available_models then
      print [FS "Model "; FS model_name; FS " is already available!"] ;;
      ret (Some true)
    else if Py.truthy_opt gguf_path then
      print [FS "Model "; FS model_name;
             FS " not found. Registering GGUF model..."] ;;
      let model_folder := PosixPath.dirname (Py.text gguf_path) in
      let gguf_filename := PosixPath.basename (Py.text gguf_path) in
      registered <- register_gguf_model model_folder gguf_filename model_name ;;
      ret (Some registered)
    else if Py.truthy_opt huggingface_model then
      print [FS "Model "; FS model_name;
             FS " not found. Creating custom model from Hugging Face..."] ;;
      OllamaClient.create_custom_model client model_name
        (Py.text huggingface_model)
    else
      print [FS "Model "; FS model_name;
             FS " not found. Attempting to pull from Ollama library..."] ;;
      OllamaClient.pull_model client model_name.

(** How one turn of the [while True] loop ends. *)
Inductive control :=
| Break
| Continue.

(** Where [interactive_mode] stands after the scripted input: it has left the
    loop, or it is back at [input("You: ")] with nothing more to read. *)
Inductive loop_status :=
| Exited
| Reading.

(** [input(prompt)]: what the operator does is given by the script; a typed
    line is returned, Ctrl-C and end of input are raised. *)
Definition input (prompt : string) (typed : outcome string) : M string :=
  fun _ _ => ([Input prompt], typed).

Definition separator : string := Str.nl ++ Str.repeat "=" 50 ++ Str.nl.

(** The body of the loop: the [try] block and its two [except] clauses. *)
Definition interactive_turn (model_name : string) (typed : outcome string)
    : M control :=
  try_
    (line <- input "You: " typed ;;
     let user_input := Str.strip line in
     if String.eqb (Str.lower user_input) "quit" then
       print [FS "Goodbye!"] ;;
       ret Break
     else if String.eqb (Str.lower user_input) "help" then
       print [FS "Commands:"] ;;
       print [FS "  quit - Exit the program"] ;;
       print [FS "  help - Show this help message"] ;;
       print [FS "  clear - Clear the conversation"] ;;
       ret Continue
     else if String.eqb (Str.lower user_input) "clear" then
       print [FS separator] ;;
       ret Continue
     else if negb (Str.truthy user_input) then
       ret Continue
     else
       print [FS "Generating response..."] ;;
       response <- generate_text_streaming_ollama_lib model_name user_input
                     512 Float.f0_7 ;;
       (if negb (Py.truthy response)
        then print [FS "Failed to generate response."]
        else ret tt) ;;
       ret Continue)
    [ (is_KeyboardInterrupt,
       fun _ => print [FS (Str.nl ++ "Goodbye!")] ;; ret Break);
      (is_Exception,
       fun e => print [FS "Error: "; FE e] ;; ret Continue) ].

Fixpoint interactive_loop (model_name : string) (script : list (outcome string))
    : M loop_status :=
  match script with
  | [] => ret Reading
  | typed :: rest =>
      c <- interactive_turn model_name typed ;;
      match c with
      | Break => ret Exited
      | Continue => interactive_loop model_name rest
      end
  end.

Definition interactive_mode (model_name : string) (script : list (outcome string))
    : M loop_status :=
  print [FS (Str.nl ++ "=== Interactive Mode ===")] ;;
  print [FS "Type 'quit' to exit, 'help' for commands"] ;;
  print [FS ("Type your message and press Enter to generate a response." ++ Str.nl)] ;;
  interactive_loop model_name script.

(** The command line after [parse_args]. *)
Record arguments := mkArgs {
  model : string;
  prompt : option string;
  max_length : Z;
  temperature : spec_float;
  ollama_url : string;
  huggingface_model : option string;
  gguf_path : option string;
  models_dir : string
}.

Definition default_model : string := "gemma-3-4b-it-qat-abliterated".

Definition default_args : arguments :=
  {| model := default_model;
     prompt := None;
     max_length := 512;
     temperature := Float.f0_7;
     ollama_url := "http://localhost:11434";
     huggingface_model := None;
     gguf_path := None;
     models_dir := "/Users/mattnevle/Models/huggingface" |}.

(** [main], first block: the local file handed to the resolver. *)
Definition main_gguf_path (args : arguments) : M (option string) :=
  if negb (Py.truthy_opt (gguf_path args))
     && String.eqb (model args) "gemma-3-4b-it-qat-abliterated"
  then
    gguf_files <- find_gguf_files (models_dir args) ;;
    match gguf_files with
    | [] => ret (gguf_path args)
    | _ =>
        match find (fun gguf_file =>
                      Str.contains gguf_file "gemma-3-4b-it-qat-abliterated")
                   gguf_files with
        | Some gguf_file =>
            print [FS "Found matching GGUF file: "; FS gguf_file] ;;
            ret (Some gguf_file)
        | None => ret (gguf_path args)
        end
    end
  else ret (gguf_path args).

(** [main], second block: the remote reference handed to the resolver. *)
Definition main_huggingface_model (args : arguments) : option string :=
  if Py.truthy_opt (huggingface_model args) then huggingface_model args
  else if String.eqb (model args) "gemma-3-1b-it-qat-abliterated"
  then Some "mlabonne/gemma-3-1b-it-qat-abliterated"
  else None.

(** [main], from the resolver call on, with the local file it was left
    with. *)
Definition main_setup_and_chat (args : arguments) (gguf_path : option string)
    (script : list (outcome string)) : M loop_status :=
  let client := ollama_url args in
  let huggingface_model := main_huggingface_model args in
  ready <- check_and_setup_model client (model args) huggingface_model gguf_path ;;
  if negb (Py.truthy (Py.of_flag ready)) then
    print [FS "Failed to setup model. Exiting."] ;;
    raise (SystemExit 1)
  else
    (if Py.truthy_opt (prompt args) then
       print [FS "Generating text for prompt: "; FS (Py.text (prompt args))] ;;
       response <- generate_text_ollama_lib (model args) (Py.text (prompt args))
                     (max_length args) (temperature args) ;;
       (if Py.truthy response
        then print [FS ("Generated text:" ++ Str.nl); FV response]
        else print [FS "Failed to generate text."]) ;;
       print [FS separator]
     else ret tt) ;;
    interactive_mode (model args) script.

Definition main (args : arguments) (script : list (outcome string))
    : M loop_status :=
  gguf_path <- main_gguf_path args ;;
  main_setup_and_chat args gguf_path script.

(** ** Vocabulary of the statements *)

(** *** Traces *)

(** What a trace does to the outside, its output left out. *)
Definition is_call (e : event) : bool :=
  match e with Print _ _ => false | _ => true end.

Definition calls (t : list event) : list event := filter is_call t.

(** The calls that change something: a pull or a create request, a written
    file, a run of the [ollama] command. *)
Definition is_mutation (e : event) : bool :=
  match e with
  | HttpPost _ _ | FileWrite _ _ | Subprocess _ => true
  | _ => false
  end.

(** The chat requests a trace sends to the daemon's chat capability. *)
Fixpoint sent_requests (t : list event) : list chat_request :=
  match t with
  | [] => []
  | Chat req :: t' => req :: sent_requests t'
  | _ :: t' => sent_requests t'
  end.

(** The files a trace writes. *)
Fixpoint writes (t : list event) : list (string * string) :=
  match t with
  | [] => []
  | FileWrite path content :: t' => (path, content) :: writes t'
  | _ :: t' => writes t'
  end.

(** [emits P m]: every event [m] produces, in any world and after any
    history, satisfies [P]. *)
Definition emits {A} (P : event -> bool) (m : M A) : Prop :=
  forall w h, forallb P (fst (m w h)) = true.

Definition is_walk (e : event) : bool :=
  match e with Walk _ => true | _ => false end.

Definition no_walk (e : event) : bool := negb (is_walk e).

(** *** The daemon client, operation by operation *)

(** The two operations that post a request and follow its streamed answer. *)
Inductive transfer :=
| Pull (model_name : string)
| Create (model_name huggingface_model : string).

Inductive operation :=
| ListModels
| Transfer (t : transfer).

Definition transfer_run (client : string) (t : transfer) : M (option bool) :=
  match t with
  | Pull model_name => OllamaClient.pull_model client model_name
  | Create model_name huggingface_model =>
      OllamaClient.create_custom_model client model_name huggingface_model
  end.

(** An operation and the Python value it hands to its caller. *)
Definition perform (client : string) (op : operation) : M value :=
  match op with
  | ListModels =>
      names <- OllamaClient.list_models client ;; ret (VList names)
  | Transfer t =>
      flag <- transfer_run client t ;; ret (Py.of_flag flag)
  end.

(** What a transfer prints before it posts its request. *)
Definition announcement (t : transfer) : list event :=
  match t with
  | Pull model_name =>
      [Print [FS "Pulling model: "; FS model_name] Str.nl;
       Print [FS "This may take several minutes depending on your internet connection..."]
         Str.nl]
  | Create model_name huggingface_model =>
      [Print [FS "Creating custom model '"; FS model_name;
              FS "' from Hugging Face: "; FS huggingface_model] Str.nl;
       Print [FS "This may take several minutes..."] Str.nl]
  end.

Definition post_url (client : string) (t : transfer) : string :=
  match t with
  | Pull _ => client ++ "/api/pull"
  | Create _ _ => client ++ "/api/create"
  end.

Definition post_body (t : transfer) : value :=
  match t with
  | Pull model_name => VDict [("name", VStr model_name)]
  | Create model_name huggingface_model =>
      VDict [("name", VStr model_name);
             ("modelfile",
              VStr (OllamaClient.modelfile_content huggingface_model))]
  end.

(** The daemon's answer to the one request of an operation started at
    history [h]. *)
Definition posted (w : world) (h : history) (client : string) (t : transfer)
    : outcome response :=
  http_post w (h ++ announcement t)%list (post_url client t) (post_body t).

Definition answer (w : world) (h : history) (client : string) (op : operation)
    : outcome response :=
  match op with
  | ListModels => http_get w h (client ++ "/api/tags")
  | Transfer t => posted w h client t
  end.

Definition request (client : string) (op : operation) : event :=
  match op with
  | ListModels => HttpGet (client ++ "/api/tags") None
  | Transfer t => HttpPost (post_url client t) (post_body t)
  end.

Definition preamble (op : operation) : list event :=
  match op with
  | ListModels => []
  | Transfer t => announcement t
  end.

(** The soft failures of section 4.1: a transport failure (a
    [RequestException]) or a status other than 200. *)
Definition soft_failure (r : outcome response) : bool :=
  match r with
  | Raise e => is_RequestException e
  | Ret resp => negb (status_code resp =? 200)
  end.

(** What each operation prints about a soft failure; [list_models] says
    nothing about a status other than 200. *)
Definition failure_log (op : operation) (r : outcome response) : list event :=
  match op, r with
  | ListModels, Raise e => [Print [FS "Error listing models: "; FE e] Str.nl]
  | ListModels, Ret _ => []
  | Transfer (Pull _), Raise e =>
      [Print [FS "Error pulling model: "; FE e] Str.nl]
  | Transfer (Pull _), Ret resp =>
      [Print [FS "Failed to pull model: "; FV (VInt (status_code resp))] Str.nl]
  | Transfer (Create _ _), Raise e =>
      [Print [FS "Error creating custom model: "; FE e] Str.nl]
  | Transfer (Create _ _), Ret resp =>
      [Print [FS "Failed to create model: "; FV (VInt (status_code resp))] Str.nl]
  end.

(** The falsy result of a soft failure: [[]] or [False]. *)
Definition failure_value (op : operation) : value :=
  match op with
  | ListModels => VList []
  | Transfer _ => VBool false
  end.

(** A streamed line that does not end a transfer: a keep-alive line, or an
    event (a JSON object) that reports a status or has no ["completed_at"]
    field. *)
Definition unfinished (l : line) : bool :=
  match l with
  | EmptyLine => true
  | DataLine (Ret (VDict d)) =>
      Py.has_key "status" d || negb (Py.has_key "completed_at" d)
  | DataLine _ => false
  end.

(** *** Paths and local registration *)

(** A directory name as [dirname] returns it: slashes only (or empty), or
    not ending in a slash. *)
Definition dir_normal (d : string) : Prop :=
  PosixPath.all_sep d = true \/ Str.endswith d "/" = false.

(** The two steps of a local registration after the file was found: the
    manifest, then the import. *)
Definition registration_steps (model_folder gguf_filename model_name : string)
    : list event :=
  [FileWrite (PosixPath.join model_folder "Modelfile")
     ("FROM ./" ++ gguf_filename ++ Str.nl);
   Subprocess ["ollama"; "create"; model_name; "-f";
               PosixPath.join model_folder "Modelfile"]].

(** *** Generation *)

(** [clamped lo hi t r]: [r] is [t] brought into the closed interval
    [[lo, hi]].  A NaN compares with nothing; it is sent as [hi]. *)
Inductive clamped (lo hi t : spec_float) : spec_float -> Prop :=
| clamped_inside :
    Float.le lo t = true -> Float.le t hi = true -> clamped lo hi t t
| clamped_below : Float.lt t lo = true -> clamped lo hi t lo
| clamped_above : Float.lt hi t = true -> clamped lo hi t hi
| clamped_nan : t = S754_nan -> clamped lo hi t hi.

(** Either generation function, by call shape. *)
Definition generate (streaming : bool) :=
  if streaming then generate_text_streaming_ollama_lib
  else generate_text_ollama_lib.

(** Concatenation of a list of strings, in order. *)
Definition concat_all (l : list string) : string :=
  fold_right String.append EmptyString l.

(** The text fragments of a sequence of chunks, when every chunk carries one
    under [['message']['content']]. *)
Fixpoint fragments (cs : list value) : option (list string) :=
  match cs with
  | [] => Some []
  | chunk :: rest =>
      match Py.getitem chunk "message" with
      | Ret message =>
          match Py.getitem message "content" with
          | Ret (VStr s) => option_map (cons s) (fragments rest)
          | _ => None
          end
      | Raise _ => None
      end
  end.

(** The fragments of a streamed reply that is consumed to its end without an
    exception; [None] when the call, a chunk or the stream itself fails. *)
Definition consumed (reply : outcome chat_chunks) : option (list string) :=
  match reply with
  | Ret r =>
      match chunks_end r with
      | None => fragments (chunks r)
      | Some _ => None
      end
  | Raise _ => None
  end.

(** What the operator sees for one fragment. *)
Definition shown (s : string) : event := Print [FV (VStr s)] "".

(** [response['message']['content']] *)
Definition reply_text (response : value) : outcome value :=
  match Py.getitem response "message" with
  | Ret message => Py.getitem message "content"
  | Raise e => Raise e
  end.

(** What the two generation functions print when they catch [e]. *)
Definition generation_error (e : exn) : event :=
  Print [FS "Error generating text with ollama library: "; FE e] Str.nl.

(** *** The resolver, the loop and the entry point *)

(** The three ways the resolver can acquire a model that is not listed. *)
Inductive acquisition :=
| LocalRegistration
| CustomCreation
| RegistryPull.

(** The priority order of section 4.3: a local file, else a remote
    reference, else a pull. *)
Definition preferred (huggingface_model gguf_path : option string)
    : acquisition :=
  if Py.truthy_opt gguf_path then LocalRegistration
  else if Py.truthy_opt huggingface_model then CustomCreation
  else RegistryPull.

(** The two read-only requests every run of the resolver starts with. *)
Definition probes (client : string) : list event :=
  [HttpGet (client ++ "/api/tags") (Some 5);
   HttpGet (client ++ "/api/tags") None].

(** What [interactive_mode] prints before its first prompt. *)
Definition banner : list event :=
  [Print [FS (Str.nl ++ "=== Interactive Mode ===")] Str.nl;
   Print [FS "Type 'quit' to exit, 'help' for commands"] Str.nl;
   Print [FS ("Type your message and press Enter to generate a response."
              ++ Str.nl)] Str.nl].

(** The command list printed for [help]. *)
Definition command_list : list event :=
  [Print [FS "Commands:"] Str.nl;
   Print [FS "  quit - Exit the program"] Str.nl;
   Print [FS "  help - Show this help message"] Str.nl;
   Print [FS "  clear - Clear the conversation"] Str.nl].

(** The case in which [main] searches for a file: no explicit path and the
    default model name. *)
Definition discovers (args : arguments) : bool :=
  negb (Py.truthy_opt (gguf_path args)) && String.eqb (model args) default_model.

(** The discovered files [main] accepts. *)
Definition usable (gguf_file : string) : bool :=
  Str.contains gguf_file default_model.

(** What [find_gguf_files] returns in world [w] after history [h]. *)
Definition discovered (w : world) (h : history) (directory : string)
    : list string :=
  match os_walk w h directory with
  | Some t => walk_gguf directory t
  | None => []
  end.

(** ** Sample worlds *)

(** The body of [GET /api/tags] for a daemon that holds [names]. *)
Definition tags (names : list string) : response :=
  {| status_code := 200;
     json := Ret (VDict [("models",
                          VList (map (fun n => VDict [("name", VStr n)]) names))]);
     iter_lines := [];
     iter_lines_end := None |}.

(** A streamed body: one status event, then the given last event. *)
Definition progress (last : value) : response :=
  {| status_code := 200;
     json := Raise (ValueError "Extra data");
     iter_lines := [DataLine (Ret (VDict [("status", VStr "pulling manifest")]));
                    EmptyLine;
                    DataLine (Ret last)];
     iter_lines_end := None |}.

Definition chunk_of (content : string) : value :=
  VDict [("message", VDict [("role", VStr "assistant");
                            ("content", VStr content)])].

Definition completed : value :=
  VDict [("completed_at", VStr "2025-01-01T00:00:00Z")].

Definition success : value := VDict [("status", VStr "success")].

(** A healthy daemon holding [names]: every request succeeds, streamed bodies
    end with [last], every file exists, chat answers ["Hello"]. *)
Definition daemon (names : list string) (last : value) : world :=
  {| http_get := fun _ _ => Ret (tags names);
     http_post := fun _ _ _ => Ret (progress last);
     os_path_isfile := fun _ _ => true;
     open_write := fun _ _ _ => None;
     subprocess_run := fun _ _ => None;
     os_walk := fun _ _ => None;
     ollama_chat := fun _ _ => Ret (chunk_of "Hello");
     ollama_chat_stream := fun _ _ =>
       Ret {| chunks := [chunk_of "Hel"; chunk_of "lo"]; chunks_end := None |} |}.

(** A daemon like [daemon], on which the operator interrupts every chat
    call with Ctrl-C. *)
Definition interrupted : world :=
  {| http_get := http_get (daemon [] completed);
     http_post := http_post (daemon [] completed);
     os_path_isfile := os_path_isfile (daemon [] completed);
     open_write := open_write (daemon [] completed);
     subprocess_run := subprocess_run (daemon [] completed);
     os_walk := os_walk (daemon [] completed);
     ollama_chat := fun _ _ => Raise KeyboardInterrupt;
     ollama_chat_stream := fun _ _ => Raise KeyboardInterrupt |}.

(** A daemon that answers every post with status 200 and one line that is
    not JSON. *)
Definition garbled : world :=
  {| http_get := http_get (daemon [] completed);
     http_post := fun _ _ _ =>
       Ret {| status_code := 200;
              json := Raise (ValueError "Expecting value");
              iter_lines := [DataLine (Raise (ValueError "Expecting value"))];
              iter_lines_end := None |};
     os_path_isfile := os_path_isfile (daemon [] completed);
     open_write := open_write (daemon [] completed);
     subprocess_run := subprocess_run (daemon [] completed);
     os_walk := os_walk (daemon [] completed);
     ollama_chat := ollama_chat (daemon [] completed);
     ollama_chat_stream := ollama_chat_stream (daemon [] completed) |}.

(** A daemon that answers every request with status 503. *)
Definition unavailable : world :=
  {| http_get := fun _ _ =>
       Ret {| status_code := 503; json := Raise (ValueError "Expecting value");
              iter_lines := []; iter_lines_end := None |};
     http_post := fun _ _ _ =>
       Ret {| status_code := 503; json := Raise (ValueError "Expecting value");
              iter_lines := []; iter_lines_end := None |};
     os_path_isfile := os_path_isfile (daemon [] completed);
     open_write := open_write (daemon [] completed);
     subprocess_run := subprocess_run (daemon [] completed);
     os_walk := os_walk (daemon [] completed);
     ollama_chat := ollama_chat (daemon [] completed);
     ollama_chat_stream := ollama_chat_stream (daemon [] completed) |}.

(** A daemon like [daemon] with a models directory holding two model files
    and a text file. *)
Definition stocked : world :=
  {| http_get := http_get (daemon [] completed);
     http_post := http_post (daemon [] completed);
     os_path_isfile := os_path_isfile (daemon [] completed);
     open_write := open_write (daemon [] completed);
     subprocess_run := subprocess_run (daemon [] completed);
     os_walk := fun _ _ =>
       Some (Dir [("llama", Dir [] ["llama3.gguf"; "README.md"]);
                  ("gemma-3-4b-it-qat-abliterated", Dir [] ["model.q4.gguf"])]
                 []);
     ollama_chat := ollama_chat (daemon [] completed);
     ollama_chat_stream := ollama_chat_stream (daemon [] completed) |}.

(** No daemon at all: every request and every chat call fails to connect. *)
Definition offline : world :=
  {| http_get := fun _ _ => Raise (RequestException "Connection refused");
     http_post := fun _ _ _ => Raise (RequestException "Connection refused");
     os_path_isfile := fun _ _ => false;
     open_write := fun _ _ _ => Some (OSError "Permission denied");
     subprocess_run := fun _ _ => Some (OSError "No such file or directory: 'ollama'");
     os_walk := fun _ _ => None;
     ollama_chat := fun _ _ => Raise (OtherException "Failed to connect to Ollama");
     ollama_chat_stream := fun _ _ =>
       Raise (OtherException "Failed to connect to Ollama") |}.

(** A daemon whose listing is a JSON array instead of an object. *)
Definition odd_listing : world :=
  {| http_get := fun _ _ =>
       Ret {| status_code := 200; json := Ret (VList [VStr "llama3"]);
              iter_lines := []; iter_lines_end := None |};
     http_post := http_post (daemon [] completed);
     os_path_isfile := os_path_isfile (daemon [] completed);
     open_write := open_write (daemon [] completed);
     subprocess_run := subprocess_run (daemon [] completed);
     os_walk := os_walk (daemon [] completed);
     ollama_chat := ollama_chat (daemon [] completed);
     ollama_chat_stream := ollama_chat_stream (daemon [] completed) |}.

(** ** Vocabulary of the further properties *)

(** *** Local registration *)


(** The history at which [register_gguf_model], started at [h], opens the
    manifest, and the one at which it runs the import. *)
Definition at_manifest (h : history) (model_folder gguf_filename : string)
    : history :=
  (h ++ [IsFile (PosixPath.join model_folder gguf_filename);
         Print [FS "Found GGUF file: ";
                FS (PosixPath.join model_folder gguf_filename)] Str.nl])%list.

Definition at_import (h : history) (model_folder gguf_filename model_name : string)
    : history :=
  (at_manifest h model_folder gguf_filename
   ++ [FileWrite (PosixPath.join model_folder "Modelfile")
         ("FROM ./" ++ gguf_filename ++ Str.nl);
       Print [FS "Created Modelfile: ";
              FS (PosixPath.join model_folder "Modelfile")] Str.nl;
       Print [FS "Registering model '"; FS model_name;
              FS "' with Ollama..."] Str.nl])%list.


(** A daemon like [daemon] whose [ollama create] command fails. *)
Definition broken_import : world :=
  {| http_get := http_get (daemon [] completed);
     http_post := http_post (daemon [] completed);
     os_path_isfile := os_path_isfile (daemon [] completed);
     open_write := open_write (daemon [] completed);
     subprocess_run := fun _ _ =>
       Some (CalledProcessError "Command returned non-zero exit status 1."
                                "" "Error: invalid file magic");
     os_walk := os_walk (daemon [] completed);
     ollama_chat := ollama_chat (daemon [] completed);
     ollama_chat_stream := ollama_chat_stream (daemon [] completed) |}.

(** *** The resolver *)

(** What the resolver prints when it sets out on an acquisition. *)
Definition setting_out (model_name : string) (path : acquisition) : event :=
  Print [FS "Model "; FS model_name;
         FS match path with
            | LocalRegistration => " not found. Registering GGUF model..."
            | CustomCreation =>
                " not found. Creating custom model from Hugging Face..."
            | RegistryPull =>
                " not found. Attempting to pull from Ollama library..."
            end] Str.nl.

(** The acquisition itself, with the verdict it hands back. *)
Definition acquire (client model_name : string)
    (huggingface_model gguf_path : option string) (path : acquisition)
    : M (option bool) :=
  match path with
  | LocalRegistration =>
      registered <- register_gguf_model
                      (PosixPath.dirname (Py.text gguf_path))
                      (PosixPath.basename (Py.text gguf_path)) model_name ;;
      ret (Some registered)
  | CustomCreation =>
      OllamaClient.create_custom_model client model_name
        (Py.text huggingface_model)
  | RegistryPull => OllamaClient.pull_model client model_name
  end.

(** *** File discovery *)



(** *** Streamed transfers *)

(** What the streamed loop prints for the lines it passes over: the value of
    ["status"] for every event that has one. *)
Fixpoint status_log (ls : list line) : list event :=
  match ls with
  | [] => []
  | DataLine (Ret (VDict d)) :: rest =>
      match Py.lookup "status" d with
      | Some status => Print [FS "Status: "; FV status] Str.nl :: status_log rest
      | None => status_log rest
      end
  | _ :: rest => status_log rest
  end.

(** An event that ends a transfer: no ["status"], but ["completed_at"]. *)
Definition completes (d : list (string * value)) : bool :=
  negb (Py.has_key "status" d) && Py.has_key "completed_at" d.

Definition done_message (t : transfer) : string :=
  match t with
  | Pull _ => "Model pulled successfully!"
  | Create _ _ => "Custom model created successfully!"
  end.

(** A daemon whose streamed answers break off after one status event. *)
Definition flaky : world :=
  {| http_get := http_get (daemon [] completed);
     http_post := fun _ _ _ =>
       Ret {| status_code := 200;
              json := Raise (ValueError "Extra data");
              iter_lines :=
                [DataLine (Ret (VDict [("status", VStr "pulling manifest")]))];
              iter_lines_end := Some (RequestException "Connection broken") |};
     os_path_isfile := os_path_isfile (daemon [] completed);
     open_write := open_write (daemon [] completed);
     subprocess_run := subprocess_run (daemon [] completed);
     os_walk := os_walk (daemon [] completed);
     ollama_chat := ollama_chat (daemon [] completed);
     ollama_chat_stream := ollama_chat_stream (daemon [] completed) |}.

(** A daemon whose listing has an entry without a name. *)
Definition nameless : world :=
  {| http_get := fun _ _ =>
       Ret {| status_code := 200;
              json := Ret (VDict [("models",
                                   VList [VDict [("name", VStr "llama3")];
                                          VDict [("size", VInt 7)]])]);
              iter_lines := []; iter_lines_end := None |};
     http_post := http_post (daemon [] completed);
     os_path_isfile := os_path_isfile (daemon [] completed);
     open_write := open_write (daemon [] completed);
     subprocess_run := subprocess_run (daemon [] completed);
     os_walk := os_walk (daemon [] completed);
     ollama_chat := ollama_chat (daemon [] completed);
     ollama_chat_stream := ollama_chat_stream (daemon [] completed) |}.

(** *** Generation *)

(** A daemon like [daemon] whose streamed reply breaks off after its first
    fragment. *)
Definition cut_off : world :=
  {| http_get := http_get (daemon [] completed);
     http_post := http_post (daemon [] completed);
     os_path_isfile := os_path_isfile (daemon [] completed);
     open_write := open_write (daemon [] completed);
     subprocess_run := subprocess_run (daemon [] completed);
     os_walk := os_walk (daemon [] completed);
     ollama_chat := ollama_chat (daemon [] completed);
     ollama_chat_stream := fun _ _ =>
       Ret {| chunks := [chunk_of "Hel"];
              chunks_end := Some (ResponseError "unexpected EOF") |} |}.


(** *** The interactive loop *)




(** *** The entry point *)

(** What [main] prints about the reply to a one-shot prompt. *)
Definition one_shot_report (response : value) : event :=
  if Py.truthy response
  then Print [FS ("Generated text:" ++ Str.nl); FV response] Str.nl
  else Print [FS "Failed to generate text."] Str.nl.

(** * Properties *)

(** ** Strings *)

Lemma append_nil_r (s : string) : s ++ "" = s.
Proof. induction s as [|c s IH]; simpl; [reflexivity | now rewrite IH]. Qed.

Lemma append_assoc (a b c : string) : (a ++ b) ++ c = a ++ b ++ c.
Proof. induction a as [|x a IH]; simpl; [reflexivity | now rewrite IH]. Qed.

Lemma startswith_app (n y : string) : Str.startswith (n ++ y) n = true.
Proof.
  induction n as [|c n IH]; simpl; [now destruct y|].
  now rewrite Ascii.eqb_refl, IH.
Qed.

Lemma contains_app (x n y : string) : Str.contains (x ++ n ++ y) n = true.
Proof.
  induction x as [|c x IH].
  - cbn [append]. pose proof (startswith_app n y) as Hs.
    destruct (n ++ y); cbn [Str.contains]; now rewrite Hs.
  - cbn [append Str.contains]. rewrite IH. apply orb_true_r.
Qed.

(** ** Floats *)

Lemma SFcompare_antisym (a b : spec_float) :
  SFcompare a b = option_map CompOpp (SFcompare b a).
Proof.
  destruct a as [sa|sa| |sa ma ea], b as [sb|sb| |sb mb eb]; simpl;
    try destruct sa; try destruct sb; simpl; try reflexivity.
  - rewrite (Z.compare_antisym eb ea).
    destruct (eb ?= ea)%Z eqn:E; simpl; try reflexivity.
    now rewrite (Pos.compare_cont_antisym mb ma Eq).
  - rewrite (Z.compare_antisym eb ea).
    destruct (eb ?= ea)%Z eqn:E; simpl; try reflexivity.
    now rewrite (Pos.compare_cont_antisym mb ma Eq).
Qed.

Lemma SFcompare_Eq_finite (s : bool) (m : positive) (e : Z) (t : spec_float) :
  SFcompare t (S754_finite s m e) = Some Eq -> t = S754_finite s m e.
Proof.
  destruct t as [st|st| |st mt et]; simpl; try destruct st; try destruct s;
    try discriminate.
  - destruct (et ?= e)%Z eqn:E; try discriminate.
    apply Z.compare_eq in E. intros H. injection H as H.
    destruct (Pos.compare_cont Eq mt m) eqn:C; try discriminate.
    apply Pos.compare_eq in C. now subst.
  - destruct (et ?= e)%Z eqn:E; try discriminate.
    apply Z.compare_eq in E. intros H. injection H as H.
    apply Pos.compare_eq in H. now subst.
Qed.

Lemma SFcompare_None_nan (s : bool) (m : positive) (e : Z) (t : spec_float) :
  SFcompare t (S754_finite s m e) = None -> t = S754_nan.
Proof.
  destruct t as [st|st| |st mt et]; simpl; try destruct st; try destruct s;
    try discriminate; reflexivity.
Qed.

Lemma lt_le (a b : spec_float) : Float.lt a b = true -> Float.le a b = true.
Proof.
  unfold Float.lt, Float.le, SFltb, SFleb.
  destruct (SFcompare a b) as [[]|]; congruence.
Qed.

Lemma clamp_temperature (t : spec_float) :
  clamped Float.f0_1 Float.f2_0 t
    (Float.max Float.f0_1 (Float.min Float.f2_0 t)).
Proof.
  unfold Float.min.
  destruct (Float.lt t Float.f2_0) eqn:Hhi.
  - unfold Float.max.
    destruct (Float.lt Float.f0_1 t) eqn:Hlo.
    + apply clamped_inside; now apply lt_le.
    + unfold Float.lt, SFltb in Hlo, Hhi.
      rewrite SFcompare_antisym in Hlo.
      destruct (SFcompare t Float.f0_1) as [[]|] eqn:C; simpl in Hlo;
        try discriminate.
      * apply SFcompare_Eq_finite in C. subst t.
        apply clamped_inside; reflexivity.
      * apply clamped_below. unfold Float.lt, SFltb. now rewrite C.
      * apply SFcompare_None_nan in C. subst t. discriminate.
  - replace (Float.max Float.f0_1 Float.f2_0) with Float.f2_0 by reflexivity.
    unfold Float.lt, SFltb in Hhi.
    destruct (SFcompare t Float.f2_0) as [[]|] eqn:C; try discriminate.
    + apply SFcompare_Eq_finite in C. subst t.
      apply clamped_inside; reflexivity.
    + apply clamped_above. unfold Float.lt, SFltb.
      rewrite SFcompare_antisym, C. reflexivity.
    + apply clamped_nan. eapply SFcompare_None_nan, C.
Qed.

Lemma clamp_temperature_range (t : spec_float) :
  let r := Float.max Float.f0_1 (Float.min Float.f2_0 t) in
  Float.le Float.f0_1 r = true /\ Float.le r Float.f2_0 = true.
Proof.
  simpl. destruct (clamp_temperature t) as [Hlo Hhi|_|_|_]; split;
    try reflexivity; assumption.
Qed.

Lemma int_min_spec (a b : Z) : int_min a b = Z.min a b.
Proof. unfold int_min. destruct (Z.ltb_spec b a); lia. Qed.

(** The options for a few inputs. *)
Example clamp_examples :
  let sent t := Float.max Float.f0_1 (Float.min Float.f2_0 t) in
  sent Float.f0_7 = Float.f0_7
  /\ sent (S754_zero false) = Float.f0_1
  /\ sent (S754_finite false 3 0) = Float.f2_0
  /\ sent (S754_infinity true) = Float.f0_1
  /\ sent (S754_infinity false) = Float.f2_0
  /\ sent S754_nan = Float.f2_0
  /\ int_min 4096 2048 = 2048
  /\ int_min 512 2048 = 512
  /\ int_min (-5) 2048 = -5.
Proof. repeat split; reflexivity. Qed.

(** ** Running computations *)

Lemma bind_run {A B} (m : M A) (f : A -> M B) (w : world) (h : history) :
  bind m f w h =
  match snd (m w h) with
  | Ret a =>
      ((fst (m w h) ++ fst (f a w (h ++ fst (m w h))))%list,
       snd (f a w (h ++ fst (m w h))%list))
  | Raise e => (fst (m w h), Raise e)
  end.
Proof.
  unfold bind. destruct (m w h) as [t1 [a|e]]; simpl; [|reflexivity].
  now destruct (f a w (h ++ t1)%list).
Qed.

Lemma try_except_run {A} (m : M A) (handles : exn -> bool)
    (handler : exn -> M A) (w : world) (h : history) :
  try_except m handles handler w h =
  match snd (m w h) with
  | Ret a => (fst (m w h), Ret a)
  | Raise e =>
      if handles e
      then ((fst (m w h) ++ fst (handler e w (h ++ fst (m w h))))%list,
            snd (handler e w (h ++ fst (m w h))%list))
      else (fst (m w h), Raise e)
  end.
Proof.
  unfold try_except. destruct (m w h) as [t1 [a|e]]; simpl; [reflexivity|].
  destruct (handles e); [|reflexivity].
  now destruct (handler e w (h ++ t1)%list).
Qed.

Ltac unfold_monad :=
  cbv beta iota delta
    [bind try_except try_ find_clause lift ret raise emit print print_end
     session_get session_post isfile write_file run chat chat_streaming
     input fst snd].

Ltac split_world :=
  match goal with
  | |- context [match ?x with _ => _ end] =>
      lazymatch x with
      | context [match _ with _ => _ end] => fail
      | _ => destruct x eqn:?
      end
  | |- context [if ?x then _ else _] =>
      lazymatch x with
      | context [match _ with _ => _ end] => fail
      | _ => destruct x eqn:?
      end
  end.

Ltac run_all := unfold_monad; repeat (split_world; unfold_monad).

Lemma sent_requests_app (t1 t2 : list event) :
  sent_requests (t1 ++ t2) = (sent_requests t1 ++ sent_requests t2)%list.
Proof.
  induction t1 as [|e t1 IH]; simpl; [reflexivity|].
  destruct e; simpl; now rewrite ?IH.
Qed.

Lemma calls_app (t1 t2 : list event) :
  calls (t1 ++ t2) = (calls t1 ++ calls t2)%list.
Proof. apply filter_app. Qed.

Lemma mutation_calls (t : list event) :
  existsb is_mutation t = existsb is_mutation (calls t).
Proof.
  unfold calls. induction t as [|e t IH]; simpl; [reflexivity|].
  destruct e; simpl; rewrite ?IH; reflexivity.
Qed.

(** ** Events a computation can produce *)

Section Emits.

Variable P : event -> bool.

Lemma emits_ret {A} (a : A) : emits P (ret a).
Proof. intros w h. reflexivity. Qed.

Lemma emits_raise {A} (e : exn) : emits P (@raise A e).
Proof. intros w h. reflexivity. Qed.

Lemma emits_lift {A} (o : outcome A) : emits P (lift o).
Proof. intros w h. reflexivity. Qed.

Lemma emits_emit (e : event) : P e = true -> emits P (emit e).
Proof. intros He w h. simpl. now rewrite He. Qed.

Lemma emits_bind {A B} (m : M A) (f : A -> M B) :
  emits P m -> (forall a, emits P (f a)) -> emits P (bind m f).
Proof.
  intros Hm Hf w h. rewrite bind_run. specialize (Hm w h).
  destruct (snd (m w h)) as [a|e]; simpl; [|exact Hm].
  rewrite forallb_app, Hm. apply Hf.
Qed.

Lemma emits_try_except {A} (m : M A) (handles : exn -> bool)
    (handler : exn -> M A) :
  emits P m -> (forall e, emits P (handler e)) ->
  emits P (try_except m handles handler).
Proof.
  intros Hm Hh w h. rewrite try_except_run. specialize (Hm w h).
  destruct (snd (m w h)) as [a|e]; simpl; [exact Hm|].
  destruct (handles e); simpl; [|exact Hm].
  rewrite forallb_app, Hm. apply Hh.
Qed.

Lemma emits_try_ {A} (m : M A)
    (clauses : list ((exn -> bool) * (exn -> M A))) :
  emits P m ->
  Forall (fun clause => forall e, emits P (snd clause e)) clauses ->
  emits P (try_ m clauses).
Proof.
  intros Hm Hc w h. unfold try_. specialize (Hm w h).
  destruct (m w h) as [t1 [a|e]]; simpl in *; [exact Hm|].
  assert (forall k, find_clause clauses e = Some k -> emits P k) as Hk.
  { clear Hm. induction Hc as [|[handles handler] rest Hx _ IH]; simpl;
      [discriminate|].
    intros k. destruct (handles e); [|apply IH].
    intros H; injection H as <-. apply Hx. }
  destruct (find_clause clauses e) as [k|]; [|exact Hm].
  specialize (Hk k eq_refl w (h ++ t1)%list).
  destruct (k w (h ++ t1)%list) as [t2 r2]. simpl in *.
  now rewrite forallb_app, Hm.
Qed.

End Emits.

(** Decides [emits no_walk] for a computation that is built from the
    combinators and never searches a directory. *)
Ltac searchless :=
  repeat first
    [ assumption
    | apply emits_ret | apply emits_raise | apply emits_lift
    | apply emits_emit; reflexivity
    | apply emits_bind; [|intros ?]
    | apply emits_try_except; [|intros ?]
    | apply emits_try_; [|repeat constructor; intros ?; simpl]
    | match goal with
      | |- emits _ (if ?c then _ else _) => destruct c
      | |- emits _ (match ?x with _ => _ end) => destruct x
      end
    | intros ? ?; reflexivity ].

(** ** Paths *)

#[local] Arguments Ascii.eqb : simpl never.

Lemma rsplit_spec (p hd t : string) :
  PosixPath.rsplit p = Some (hd, t) ->
  p = hd ++ t /\ PosixPath.rsplit t = None
  /\ exists hd', hd = hd' ++ "/".
Proof.
  revert hd. induction p as [|c r IH]; intros hd; simpl; [discriminate|].
  destruct (PosixPath.rsplit r) as [[h' t']|] eqn:Hr.
  - intros H; injection H as <- <-.
    destruct (IH h' eq_refl) as (-> & Hnone & hd' & ->).
    repeat split; trivial. now exists (String c hd').
  - destruct (Ascii.eqb_spec c PosixPath.sep) as [->|]; [|discriminate].
    intros H; injection H as <- <-.
    repeat split; trivial. now exists "".
Qed.

Lemma rsplit_app (hd t : string) :
  PosixPath.rsplit t = None ->
  PosixPath.rsplit (hd ++ "/" ++ t) = Some (hd ++ "/", t).
Proof.
  intros Ht. induction hd as [|c hd IH]; simpl.
  - now rewrite Ht.
  - simpl in IH. now rewrite IH.
Qed.

Lemma rsplit_none_head (c : ascii) (s : string) :
  PosixPath.rsplit (String c s) = None ->
  c <> PosixPath.sep /\ PosixPath.rsplit s = None.
Proof.
  simpl. destruct (PosixPath.rsplit s) as [[]|]; [discriminate|].
  destruct (Ascii.eqb_spec c PosixPath.sep); [discriminate|]. auto.
Qed.

Lemma rsplit_none_contains (s : string) :
  PosixPath.rsplit s = None -> Str.contains s "/" = false.
Proof.
  induction s as [|c s IH]; [reflexivity|].
  intros H. apply rsplit_none_head in H as [Hc Hs].
  simpl. rewrite (IH Hs).
  destruct (Ascii.eqb_spec "/"%char c) as [<-|]; [now elim Hc|reflexivity].
Qed.

Lemma basename_no_sep (p : string) :
  PosixPath.rsplit (PosixPath.basename p) = None.
Proof.
  unfold PosixPath.basename.
  destruct (PosixPath.rsplit p) as [[hd t]|] eqn:Hp; [|exact Hp].
  now apply rsplit_spec in Hp.
Qed.

Lemma endswith_app_sep (d : string) : Str.endswith (d ++ "/") "/" = true.
Proof.
  induction d as [|c d IH]; [reflexivity|].
  simpl. simpl in IH. rewrite IH. apply orb_true_r.
Qed.

Lemma endswith_sep_inv (d : string) :
  Str.endswith d "/" = true -> exists d', d = d' ++ "/".
Proof.
  induction d as [|c d IH]; [discriminate|]. cbn [Str.endswith].
  intros H. apply orb_true_iff in H as [H|H].
  - apply String.eqb_eq in H. rewrite H. now exists "".
  - destruct (IH H) as [d' ->]. now exists (String c d').
Qed.

Lemma all_sep_app (a b : string) :
  PosixPath.all_sep (a ++ b) = PosixPath.all_sep a && PosixPath.all_sep b.
Proof.
  induction a as [|c a IH]; simpl; [reflexivity|].
  now rewrite IH, andb_assoc.
Qed.

Lemma rstrip_sep_app_sep (d : string) :
  PosixPath.rstrip_sep (d ++ "/") = PosixPath.rstrip_sep d.
Proof.
  induction d as [|c d IH]; [reflexivity|].
  simpl. simpl in IH. now rewrite IH.
Qed.

Lemma rstrip_sep_fixed (d : string) :
  Str.endswith d "/" = false -> PosixPath.rstrip_sep d = d.
Proof.
  induction d as [|c d IH]; [reflexivity|].
  simpl. intros H. apply orb_false_iff in H as [Hc Hd].
  rewrite (IH Hd). destruct d as [|c' d']; [|reflexivity].
  destruct (Ascii.eqb_spec c PosixPath.sep) as [->|]; [discriminate|reflexivity].
Qed.

Lemma rstrip_sep_no_sep_end (s : string) :
  PosixPath.all_sep s = false ->
  Str.endswith (PosixPath.rstrip_sep s) "/" = false
  /\ PosixPath.rstrip_sep s <> "".
Proof.
  induction s as [|c s IH]; simpl; [discriminate|].
  destruct (Ascii.eqb_spec c PosixPath.sep) as [->|Hc]; simpl.
  - intros H. destruct (IH H) as [He Hn].
    destruct (PosixPath.rstrip_sep s) as [|c' r] eqn:Hr; [now elim Hn|].
    split; [|discriminate]. simpl. simpl in He. exact He.
  - intros _. destruct (PosixPath.all_sep s) eqn:Hs.
    + assert (PosixPath.rstrip_sep s = "") as ->.
      { clear IH. induction s as [|c' s IH']; [reflexivity|].
        simpl in Hs. apply andb_true_iff in Hs as [Hc' Hs].
        simpl. rewrite (IH' Hs), Hc'. reflexivity. }
      split; [|discriminate]. simpl.
      destruct (Ascii.eqb_spec c "/"%char); [now elim Hc|reflexivity].
    + destruct (IH eq_refl) as [He Hn].
      destruct (PosixPath.rstrip_sep s) as [|c' r] eqn:Hr; [now elim Hn|].
      split; [|discriminate].
      change (Str.endswith (String c (String c' r)) "/")
        with ((String c (String c' r) =? "/")%string
              || Str.endswith (String c' r) "/").
      rewrite He. simpl. now destruct (Ascii.eqb c "/"%char).
Qed.

Lemma dirname_normal (p : string) : dir_normal (PosixPath.dirname p).
Proof.
  unfold PosixPath.dirname, dir_normal.
  destruct (PosixPath.rsplit p) as [[hd t]|]; [|now left].
  destruct (PosixPath.all_sep hd) eqn:Hall; [now left|].
  right. now apply rstrip_sep_no_sep_end.
Qed.
Lemma no_sep_startswith (n : string) :
  PosixPath.rsplit n = None -> Str.startswith n "/" = false.
Proof.
  destruct n as [|c n]; [reflexivity|].
  intros H. apply rsplit_none_head in H as [Hc _]. simpl.
  destruct (Ascii.eqb_spec "/"%char c) as [<-|]; [now elim Hc|reflexivity].
Qed.

Lemma all_sep_endswith (d : string) :
  PosixPath.all_sep d = true -> d <> "" -> Str.endswith d "/" = true.
Proof.
  induction d as [|c d IH]; [now intros _ H; elim H|].
  simpl. intros H _. apply andb_true_iff in H as [Hc Hd].
  apply Ascii.eqb_eq in Hc. subst c.
  destruct d as [|c' d']; [reflexivity|].
  cbn [Str.endswith]. cbn [Str.endswith] in IH.
  rewrite IH; [apply orb_true_r|assumption|discriminate].
Qed.

(** Joining a directory name and a slash-free name, then splitting again,
    gives both back, however deep the directory is. *)
Lemma split_join (d n : string) :
  dir_normal d -> PosixPath.rsplit n = None ->
  PosixPath.dirname (PosixPath.join d n) = d
  /\ PosixPath.basename (PosixPath.join d n) = n.
Proof.
  intros Hd Hn. unfold PosixPath.join.
  rewrite (no_sep_startswith n Hn).
  destruct d as [|c d'].
  { simpl. unfold PosixPath.dirname, PosixPath.basename. now rewrite Hn. }
  cbn [Str.truthy negb orb].
  remember (String c d') as d eqn:Ed.
  assert (d <> "") as Hne by (subst d; discriminate).
  destruct (Str.endswith d "/") eqn:He.
  - destruct Hd as [Hall|Hd]; [|congruence].
    destruct (endswith_sep_inv d He) as [d0 ->].
    rewrite append_assoc.
    unfold PosixPath.dirname, PosixPath.basename.
    rewrite (rsplit_app d0 n Hn), Hall. auto.
  - unfold PosixPath.dirname, PosixPath.basename.
    rewrite (rsplit_app d n Hn).
    rewrite all_sep_app, rstrip_sep_app_sep, (rstrip_sep_fixed d He).
    destruct (PosixPath.all_sep d) eqn:Hall; [|auto].
    rewrite (all_sep_endswith d Hall Hne) in He. discriminate.
Qed.

(** Splitting a path and joining the two parts gives the path back, unless
    it holds a doubled slash. *)
Lemma join_split (p : string) :
  Str.contains p "//" = false ->
  PosixPath.join (PosixPath.dirname p) (PosixPath.basename p) = p.
Proof.
  intros Hp. unfold PosixPath.dirname, PosixPath.basename.
  destruct (PosixPath.rsplit p) as [[hd t]|] eqn:Hsplit.
  - destruct (rsplit_spec p hd t Hsplit) as (-> & Ht & hd' & ->).
    unfold PosixPath.join. rewrite (no_sep_startswith t Ht).
    rewrite all_sep_app. cbn [PosixPath.all_sep].
    rewrite Ascii.eqb_refl, andb_true_r.
    destruct (PosixPath.all_sep hd') eqn:Hall.
    + rewrite endswith_app_sep, orb_true_r. reflexivity.
    + rewrite rstrip_sep_app_sep.
      assert (Str.endswith hd' "/" = false) as He.
      { destruct (Str.endswith hd' "/") eqn:He; [|reflexivity].
        destruct (endswith_sep_inv hd' He) as [d ->].
        rewrite !append_assoc in Hp.
        change ("/" ++ "/" ++ t) with ("//" ++ t) in Hp.
        now rewrite contains_app in Hp. }
      rewrite (rstrip_sep_fixed hd' He), He.
      destruct hd' as [|c r]; [discriminate|].
      cbn [Str.truthy negb orb]. now rewrite append_assoc.
  - unfold PosixPath.join. rewrite (no_sep_startswith p Hsplit). reflexivity.
Qed.

(** [posixpath] on a few paths. *)
Example path_examples :
  PosixPath.dirname "/models/gemma/model.gguf" = "/models/gemma"
  /\ PosixPath.basename "/models/gemma/model.gguf" = "model.gguf"
  /\ PosixPath.dirname "model.gguf" = ""
  /\ PosixPath.join "" "Modelfile" = "Modelfile"
  /\ PosixPath.dirname "/model.gguf" = "/"
  /\ PosixPath.join "/" "Modelfile" = "/Modelfile"
  /\ PosixPath.dirname "a//b.gguf" = "a"
  /\ PosixPath.join "a" "b.gguf" = "a/b.gguf".
Proof. repeat split; reflexivity. Qed.

(** ** The daemon client *)

Lemma check_ollama_running_calls (client : string) (w : world) (h : history) :
  fst (OllamaClient.check_ollama_running client w h)
  = [HttpGet (client ++ "/api/tags") (Some 5)].
Proof.
  unfold OllamaClient.check_ollama_running. run_all; reflexivity.
Qed.

Lemma list_models_calls (client : string) (w : world) (h : history) :
  calls (fst (OllamaClient.list_models client w h))
  = [HttpGet (client ++ "/api/tags") None].
Proof.
  unfold OllamaClient.list_models. run_all; reflexivity.
Qed.
Lemma watch_calls (done : string) (ls : list line) (stop : option exn)
    (w : world) (h : history) :
  calls (fst (OllamaClient.watch done ls stop w h)) = [].
Proof.
  revert h. induction ls as [|l rest IH]; intros h; simpl.
  - now destruct stop.
  - destruct l as [|parsed]; [apply IH|].
    run_all; try reflexivity;
      match goal with
      | H : OllamaClient.watch _ _ _ _ ?h' = _ |- _ =>
          pose proof (IH h') as Hq; rewrite H in Hq; simpl in Hq |- *;
          exact Hq
      end.
Qed.

(** Recalls that the streamed loop makes no call of its own. *)
Ltac watched :=
  match goal with
  | H : OllamaClient.watch ?d ?l ?s ?w ?h' = _ |- _ =>
      pose proof (watch_calls d l s w h') as Hcalls;
      rewrite H in Hcalls; simpl in Hcalls
  end.

Lemma pull_model_calls (client model_name : string) (w : world) (h : history) :
  calls (fst (OllamaClient.pull_model client model_name w h))
  = [HttpPost (client ++ "/api/pull") (VDict [("name", VStr model_name)])].
Proof.
  unfold OllamaClient.pull_model. run_all; try reflexivity;
    watched; simpl; rewrite ?calls_app, Hcalls; reflexivity.
Qed.

Lemma create_custom_model_calls (client model_name hf : string)
    (w : world) (h : history) :
  calls (fst (OllamaClient.create_custom_model client model_name hf w h))
  = [HttpPost (client ++ "/api/create")
       (VDict [("name", VStr model_name);
               ("modelfile", VStr (OllamaClient.modelfile_content hf))])].
Proof.
  unfold OllamaClient.create_custom_model. run_all; try reflexivity;
    watched; simpl; rewrite ?calls_app, Hcalls; reflexivity.
Qed.

Lemma watch_no_walk (done : string) (ls : list line) (stop : option exn) :
  emits no_walk (OllamaClient.watch done ls stop).
Proof.
  induction ls as [|l rest IH]; simpl; searchless.
Qed.

(** C5, as the code has it.  A transport failure ([RequestException]) or a
    status other than 200 makes each client operation return its falsy
    result ([[]] or [False]) without raising, after exactly one request (no
    retry).  [pull_model] and [create_custom_model] log both kinds of
    failure; [list_models] logs a transport failure only. *)
Theorem client_soft_failures :
  forall (w : world) (h : history) (client : string) (op : operation),
    soft_failure (answer w h client op) = true ->
    perform client op w h
    = ((preamble op ++ [request client op]
        ++ failure_log op (answer w h client op))%list,
       Ret (failure_value op))
    /\ Py.truthy (failure_value op) = false.
Proof.
  intros w h client op Hsoft. split; [|now destruct op].
  destruct op as [|[model_name|model_name hf]];
    unfold perform, transfer_run, answer, posted, OllamaClient.list_models,
      OllamaClient.pull_model, OllamaClient.create_custom_model in *;
    simpl in Hsoft |- *; unfold_monad; rewrite ?app_nil_r;
    rewrite <- ?app_assoc; simpl app.
  - destruct (http_get w h _) as [response|e]; simpl in Hsoft; unfold_monad.
    + apply negb_true_iff in Hsoft. now rewrite Hsoft.
    + now rewrite Hsoft.
  - destruct (http_post w _ _ _) as [response|e]; simpl in Hsoft; unfold_monad.
    + apply negb_true_iff in Hsoft. now rewrite Hsoft.
    + now rewrite Hsoft.
  - destruct (http_post w _ _ _) as [response|e]; simpl in Hsoft; unfold_monad.
    + apply negb_true_iff in Hsoft. now rewrite Hsoft.
    + now rewrite Hsoft.
Qed.

(** A pull answered with status 503. *)
Lemma client_soft_failures_witness :
  perform "http://localhost:11434" (Transfer (Pull "y")) unavailable []
  = ((announcement (Pull "y")
      ++ [HttpPost "http://localhost:11434/api/pull" (VDict [("name", VStr "y")])]
      ++ [Print [FS "Failed to pull model: "; FV (VInt 503)] Str.nl])%list,
     Ret (VBool false))
  /\ Py.truthy (VBool false) = false.
Proof.
  apply (client_soft_failures unavailable [] "http://localhost:11434"
           (Transfer (Pull "y"))).
  reflexivity.
Defined.

(** C5, as stated, fails twice.  A streamed line that is not JSON is not
    guarded: [pull_model] raises the parse error to its caller.  And
    [list_models] returns [[]] on a status other than 200 without logging
    anything. *)
Lemma client_raises_on_malformed_line :
  OllamaClient.pull_model "http://localhost:11434" "y" garbled []
  = ((announcement (Pull "y")
      ++ [HttpPost "http://localhost:11434/api/pull"
            (VDict [("name", VStr "y")])])%list,
     Raise (ValueError "Expecting value"))
  /\ OllamaClient.list_models "http://localhost:11434" unavailable []
     = ([HttpGet "http://localhost:11434/api/tags" None], Ret []).
Proof. split; reflexivity. Qed.

Lemma watch_true (done : string) (ls : list line) (stop : option exn)
    (w : world) (h : history) :
  snd (OllamaClient.watch done ls stop w h) = Ret (Some true) ->
  exists data,
    In (DataLine (Ret data)) ls
    /\ Py.contains "status" data = Ret false
    /\ Py.contains "completed_at" data = Ret true.
Proof.
  revert h. induction ls as [|l rest IH]; intros h; simpl.
  - destruct stop; discriminate.
  - destruct l as [|[data|e]].
    + intros H. destruct (IH _ H) as [data [Hin Hd]]. exists data. auto.
    + unfold_monad.
      destruct (Py.contains "status" data) as [[]|e] eqn:Hs; unfold_monad;
        try discriminate.
      * destruct (Py.getitem data "status"); unfold_monad; try discriminate.
        destruct (OllamaClient.watch done rest stop w _) as [t r] eqn:Hw.
        simpl. intros ->.
        match type of Hw with
        | OllamaClient.watch _ _ _ _ ?h' = _ =>
            destruct (IH h') as [d [Hin Hd]]; [now rewrite Hw|]
        end.
        exists d. auto.
      * destruct (Py.contains "completed_at" data) as [[]|e] eqn:Hc;
          unfold_monad; try discriminate.
        -- intros _. exists data. auto.
        -- destruct (OllamaClient.watch done rest stop w _) as [t r] eqn:Hw.
           simpl. intros ->.
           match type of Hw with
           | OllamaClient.watch _ _ _ _ ?h' = _ =>
               destruct (IH h') as [d [Hin Hd]]; [now rewrite Hw|]
           end.
           exists d. auto.
    + unfold_monad. discriminate.
Qed.

Lemma watch_none (done : string) (ls : list line) (w : world) (h : history) :
  forallb unfinished ls = true ->
  snd (OllamaClient.watch done ls None w h) = Ret None.
Proof.
  revert h. induction ls as [|l rest IH]; intros h; simpl; [reflexivity|].
  intros H. apply andb_true_iff in H as [Hl Hrest].
  destruct l as [|[[]|e]]; try discriminate; [now apply IH|].
  simpl in Hl. unfold_monad. unfold Py.contains, Py.getitem, Py.has_key in *.
  destruct (Py.lookup "status" d) as [status|]; unfold_monad;
    [|destruct (Py.lookup "completed_at" d); [discriminate|]; unfold_monad];
    match goal with
    | |- context [OllamaClient.watch ?a ?l ?s w ?h'] =>
        specialize (IH h' Hrest);
        destruct (OllamaClient.watch a l s w h') as [t r]
    end; exact IH.
Qed.

(** C10.  [pull_model] and [create_custom_model] return [True] only when the
    request was answered with status 200 and a streamed event holds
    ["completed_at"] (and reports no ["status"]).  When the status is 200 and
    the stream ends with no such event, they fall off their end and return
    [None], which is falsy but is not [False]. *)
Theorem transfer_true_only_on_completed :
  forall (w : world) (h : history) (client : string) (t : transfer),
    let result := transfer_run client t w h in
    (snd result = Ret (Some true) ->
     exists response data,
       posted w h client t = Ret response
       /\ status_code response = 200
       /\ In (DataLine (Ret data)) (iter_lines response)
       /\ Py.contains "status" data = Ret false
       /\ Py.contains "completed_at" data = Ret true)
    /\ (forall response,
          posted w h client t = Ret response ->
          status_code response = 200 ->
          iter_lines_end response = None ->
          forallb unfinished (iter_lines response) = true ->
          snd result = Ret None
          /\ Py.truthy (Py.of_flag None) = false
          /\ Py.of_flag None <> VBool false).
Proof.
  intros w h client t result. subst result.
  destruct t as [model_name|model_name hf];
    unfold transfer_run, posted, OllamaClient.pull_model,
      OllamaClient.create_custom_model; simpl; unfold_monad;
    rewrite ?app_nil_r; rewrite <- ?app_assoc; simpl app;
    (destruct (http_post w _ _ _) as [response|e]; unfold_monad;
     [ destruct (status_code response =? 200) eqn:Hstatus; unfold_monad;
       [ apply Z.eqb_eq in Hstatus;
         match goal with
         | |- context [OllamaClient.watch ?a ?l ?s w ?h'] =>
             pose proof (watch_true a l s w h') as Htrue;
             pose proof (watch_none a l w h') as Hnone;
             destruct (OllamaClient.watch a l s w h') as [tr r] eqn:Hw
         end;
         split;
         [ destruct r as [flag|e]; simpl;
           [ intros H; injection H as ->;
             destruct (Htrue eq_refl) as [data Hdata];
             exists response, data; auto
           | destruct (is_RequestException e); discriminate ]
         | intros response' H; injection H as <-; intros _ Hend Hall;
           rewrite Hend in Hw; rewrite Hw in Hnone;
           specialize (Hnone Hall); simpl in Hnone; subst r;
           repeat split; discriminate ]
       | split;
         [ discriminate
         | intros response' H; injection H as <-; intros Hs;
           apply Z.eqb_eq in Hs; congruence ] ]
     | split;
       [ destruct (is_RequestException e); discriminate
       | intros response' H; discriminate ] ]).
Qed.

(** A pull whose stream ends with a [completed_at] event, and one whose
    stream ends with [{"status": "success"}] only. *)
Example pull_completed :
  snd (OllamaClient.pull_model "http://localhost:11434" "y"
         (daemon [] completed) [])
  = Ret (Some true).
Proof. reflexivity. Qed.

Example pull_without_completed_at :
  snd (OllamaClient.pull_model "http://localhost:11434" "y"
         (daemon [] success) [])
  = Ret None.
Proof. reflexivity. Qed.

(** [None] is falsy: [main] reports the failed setup and exits with 1. *)
Example main_reports_failure :
  snd (main {| model := "y"; prompt := None; max_length := 512;
               temperature := Float.f0_7;
               ollama_url := "http://localhost:11434";
               huggingface_model := None; gguf_path := None;
               models_dir := "/models" |} [] (daemon [] success) [])
  = Raise (SystemExit 1).
Proof. reflexivity. Qed.

(** A listing of an unexpected shape is not guarded either. *)
Example list_models_odd_listing :
  OllamaClient.list_models "http://localhost:11434" odd_listing []
  = ([HttpGet "http://localhost:11434/api/tags" None],
     Raise (AttributeError "object has no attribute 'get'")).
Proof. reflexivity. Qed.

(** The listing of a healthy daemon, and of none. *)
Example list_models_examples :
  OllamaClient.list_models "http://localhost:11434"
    (daemon ["llama3"; "gemma"] completed) []
  = ([HttpGet "http://localhost:11434/api/tags" None],
     Ret [VStr "llama3"; VStr "gemma"])
  /\ OllamaClient.list_models "http://localhost:11434" offline []
     = ([HttpGet "http://localhost:11434/api/tags" None;
         Print [FS "Error listing models: ";
                FE (RequestException "Connection refused")] Str.nl],
        Ret []).
Proof. split; reflexivity. Qed.

(** ** Local registration *)

Lemma register_gguf_model_calls (model_folder gguf_filename model_name : string)
    (w : world) (h : history) :
  exists written : bool,
    calls (fst (register_gguf_model model_folder gguf_filename model_name w h))
    = IsFile (PosixPath.join model_folder gguf_filename)
        :: (if written
            then registration_steps model_folder gguf_filename model_name
            else []).
Proof.
  unfold register_gguf_model. run_all;
    first [ now exists true | now exists false ].
Qed.

(** C6.  Invoked, as the resolver does, with the directory and the base name
    of a path whose file exists, local registration writes one file: the
    [Modelfile] in that directory, holding the single line [FROM ./] followed
    by the base name.  The base name holds no slash, whatever the depth of
    the path, and the file looked for is the path itself unless the path
    holds a doubled slash. *)
Theorem manifest_names_the_file :
  forall (w : world) (h : history) (path model_name : string),
    let folder := PosixPath.dirname path in
    let file := PosixPath.basename path in
    let gguf := PosixPath.join folder file in
    let modelfile := PosixPath.join folder "Modelfile" in
    let manifest := "FROM ./" ++ file ++ Str.nl in
    os_path_isfile w h gguf = true ->
    open_write w (h ++ [IsFile gguf; Print [FS "Found GGUF file: "; FS gguf] Str.nl])%list
      modelfile manifest = None ->
    writes (fst (register_gguf_model folder file model_name w h))
    = [(modelfile, manifest)]
    /\ PosixPath.dirname modelfile = folder
    /\ PosixPath.basename gguf = file
    /\ Str.contains file "/" = false
    /\ (Str.contains path "//" = false -> gguf = path).
Proof.
  intros w h path model_name folder file gguf modelfile manifest Hfile Hopen.
  split.
  - unfold register_gguf_model. unfold_monad.
    fold gguf modelfile manifest. rewrite ?app_nil_r.
    rewrite Hfile. cbn [negb]. unfold_monad. rewrite <- ?app_assoc. simpl app.
    rewrite Hopen. unfold_monad.
    destruct (subprocess_run w _ _) as [e|]; unfold_monad; [|reflexivity].
    destruct (is_CalledProcessError e); unfold_monad; [reflexivity|].
    destruct (is_Exception e); reflexivity.
  - pose proof (dirname_normal path) as Hd.
    pose proof (basename_no_sep path) as Hb.
    split; [apply (split_join folder "Modelfile" Hd eq_refl)|].
    split; [apply (split_join folder file Hd Hb)|].
    split; [now apply rsplit_none_contains|].
    apply join_split.
Qed.

(** A file three directories deep. *)
Lemma manifest_names_the_file_witness :
  writes (fst (register_gguf_model
                 (PosixPath.dirname "/models/gemma/q4/model.gguf")
                 (PosixPath.basename "/models/gemma/q4/model.gguf")
                 "gemma" (daemon [] completed) []))
  = [("/models/gemma/q4/Modelfile", "FROM ./model.gguf" ++ Str.nl)]
  /\ PosixPath.dirname "/models/gemma/q4/Modelfile" = "/models/gemma/q4"
  /\ PosixPath.basename "/models/gemma/q4/model.gguf" = "model.gguf"
  /\ Str.contains "model.gguf" "/" = false.
Proof.
  destruct (manifest_names_the_file (daemon [] completed) []
              "/models/gemma/q4/model.gguf" "gemma" eq_refl eq_refl)
    as (Hwrites & Hdir & Hbase & Hsep & _).
  repeat split; assumption.
Defined.

(** ** Generation *)

Lemma consume_sends_nothing (cs : list value) (stop : option exn)
    (full : string) (w : world) (h : history) :
  sent_requests (fst (consume cs stop full w h)) = [].
Proof.
  revert full h. induction cs as [|chunk rest IH]; intros full h; simpl.
  - now destruct stop.
  - rewrite bind_run. unfold lift at 1 2. simpl.
    destruct (Py.getitem chunk "message") as [message|e]; [|reflexivity].
    rewrite bind_run. unfold lift at 1 2. simpl.
    destruct (Py.getitem message "content") as [content|e]; [|reflexivity].
    rewrite bind_run. simpl. rewrite bind_run. unfold lift at 1 2. simpl.
    destruct (str_add full content) as [full'|e]; [|reflexivity].
    simpl. apply IH.
Qed.
Lemma single_shot_sends_once (w : world) (h : history)
    (model_name prompt : string) (ml : Z) (t : spec_float) :
  sent_requests (fst (generate_text_ollama_lib model_name prompt ml t w h))
  = [chat_options model_name prompt ml t false].
Proof.
  unfold generate_text_ollama_lib.
  rewrite try_except_run, bind_run. unfold chat at 1 2 3 4. simpl.
  destruct (ollama_chat w h _) as [response|e]; simpl.
  - rewrite bind_run. unfold lift. simpl.
    destruct (Py.getitem response "message") as [message|e]; simpl.
    + destruct (Py.getitem message "content") as [content|e]; simpl;
        [reflexivity|].
      destruct (is_Exception e); reflexivity.
    + destruct (is_Exception e); reflexivity.
  - destruct (is_Exception e); reflexivity.
Qed.

Lemma streaming_sends_once (w : world) (h : history)
    (model_name prompt : string) (ml : Z) (t : spec_float) :
  sent_requests
    (fst (generate_text_streaming_ollama_lib model_name prompt ml t w h))
  = [chat_options model_name prompt ml t true].
Proof.
  unfold generate_text_streaming_ollama_lib.
  rewrite try_except_run, bind_run. simpl.
  rewrite bind_run. unfold chat_streaming at 1 2 3 4. simpl.
  destruct (ollama_chat_stream w _ _) as [reply|e]; simpl.
  - rewrite bind_run.
    pose proof (consume_sends_nothing (chunks reply) (chunks_end reply) ""
                  w ((h ++ [Print [FS "Response: "] ""]) ++
                     [Chat (chat_options model_name prompt ml t true)])%list)
      as Hq.
    destruct (consume _ _ _ w _) as [tr [full|e]]; simpl in *.
    + now rewrite sent_requests_app, Hq.
    + destruct (is_Exception e); simpl;
        now rewrite ?sent_requests_app, ?Hq.
  - destruct (is_Exception e); reflexivity.
Qed.

(** C2.  Whatever the temperature and the length asked for, each generation
    function sends exactly one chat request; its temperature is the input
    clamped into [0.1, 2.0] (hence inside that interval) and its
    [num_predict] is the smaller of [max_length] and 2048.  No input is
    turned away. *)
Theorem generation_options_clamped :
  forall (streaming : bool) (w : world) (h : history)
         (model_name prompt : string) (max_length : Z)
         (temperature : spec_float),
  exists req,
    sent_requests
      (fst (generate streaming model_name prompt max_length temperature w h))
    = [req]
    /\ clamped Float.f0_1 Float.f2_0 temperature (opt_temperature req)
    /\ Float.le Float.f0_1 (opt_temperature req) = true
    /\ Float.le (opt_temperature req) Float.f2_0 = true
    /\ opt_num_predict req = Z.min max_length 2048.
Proof.
  intros streaming w h model_name prompt ml t.
  exists (chat_options model_name prompt ml t streaming).
  split.
  - destruct streaming; simpl;
      [apply streaming_sends_once | apply single_shot_sends_once].
  - simpl. split; [apply clamp_temperature|].
    split; [apply clamp_temperature_range|].
    split; [apply clamp_temperature_range|].
    apply int_min_spec.
Qed.

Lemma consume_fragments (cs : list value) (fs : list string) (full : string)
    (w : world) (h : history) :
  fragments cs = Some fs ->
  consume cs None full w h = (map shown fs, Ret (full ++ concat_all fs)).
Proof.
  revert fs full h. induction cs as [|chunk rest IH]; intros fs full h Hfs.
  - injection Hfs as <-. simpl. unfold ret. now rewrite append_nil_r.
  - simpl in Hfs |- *. unfold_monad.
    destruct (Py.getitem chunk "message") as [message|]; [|discriminate].
    unfold_monad.
    destruct (Py.getitem message "content") as [[]|]; try discriminate.
    destruct (fragments rest) as [fs'|]; [|discriminate].
    injection Hfs as <-. unfold_monad. simpl.
    rewrite (IH fs' _ _ eq_refl). simpl.
    now rewrite append_assoc.
Qed.

Lemma consume_failure (cs : list value) (stop : option exn) (full : string)
    (w : world) (h : history) :
  match stop with None => fragments cs | Some _ => None end = None ->
  exists e, snd (consume cs stop full w h) = Raise e.
Proof.
  revert full h. induction cs as [|chunk rest IH]; intros full h Hfs.
  - simpl in *. destruct stop as [e|]; [|discriminate]. now exists e.
  - simpl. unfold_monad.
    destruct (Py.getitem chunk "message") as [message|e] eqn:Hm;
      [|now exists e].
    unfold_monad.
    destruct (Py.getitem message "content") as [content|e] eqn:Hc;
      [|now exists e].
    unfold_monad. destruct (str_add full content) as [full'|e] eqn:Ha;
      [|now exists e].
    destruct content; try discriminate. unfold_monad.
    destruct (IH full' (((((h ++ []) ++ []) ++ [Print [FV (VStr s)] ""]) ++ [])%list))
      as [e He].
    + destruct stop; [reflexivity|]. simpl in Hfs. rewrite Hm, Hc in Hfs.
      now destruct (fragments rest).
    + destruct (consume rest stop full' w _) as [t r]. simpl in He. subst r.
      now exists e.
Qed.
(** C4.  When the streamed reply is consumed to its end without an exception,
    streaming generation prints the heading, sends the request, prints each
    fragment as it arrives, ends the line, and returns the concatenation of
    exactly those fragments in that order.  In every other run it returns no
    text at all. *)
Theorem streaming_returns_what_it_printed :
  forall (w : world) (h : history) (model_name prompt : string)
         (max_length : Z) (temperature : spec_float),
    let req := chat_options model_name prompt max_length temperature true in
    let result :=
      generate_text_streaming_ollama_lib model_name prompt max_length
        temperature w h in
    match consumed (ollama_chat_stream w (h ++ [Print [FS "Response: "] ""])%list
                      req) with
    | Some fs =>
        result =
        (([Print [FS "Response: "] ""; Chat req]
          ++ map shown fs ++ [Print [] Str.nl])%list,
         Ret (VStr (concat_all fs)))
    | None => forall s, snd result <> Ret (VStr s)
    end.
Proof.
  intros w h model_name prompt ml t req result. subst result.
  unfold generate_text_streaming_ollama_lib, consumed. unfold_monad.
  fold req. rewrite !app_nil_r.
  destruct (ollama_chat_stream w _ req) as [reply|e]; unfold_monad.
  - destruct (chunks_end reply) as [stop|] eqn:Hstop.
    + match goal with
      | |- context [consume ?cs ?st ?f w ?h'] =>
          destruct (consume_failure cs st f w h' eq_refl) as [e He];
          destruct (consume cs st f w h') as [tr r]
      end.
      simpl in He. subst r.
      destruct (is_Exception e); intros s; simpl; discriminate.
    + destruct (fragments (chunks reply)) as [fs|] eqn:Hfs.
      * rewrite (consume_fragments _ fs "" w _ Hfs). reflexivity.
      * match goal with
        | |- context [consume ?cs ?st ?f w ?h'] =>
            destruct (consume_failure cs st f w h' Hfs) as [e He];
            destruct (consume cs st f w h') as [tr r]
        end.
        simpl in He. subst r.
        destruct (is_Exception e); intros s; simpl; discriminate.
  - destruct (is_Exception e); intros s; simpl; discriminate.
Qed.

Lemma getitem_raises_Exception (v : value) (k : string) (e : exn) :
  Py.getitem v k = Raise e -> is_Exception e = true.
Proof.
  destruct v; simpl; try (intros H; injection H as <-; reflexivity).
  destruct (Py.lookup k d); [discriminate|].
  intros H; injection H as <-; reflexivity.
Qed.

Lemma reply_text_raises_Exception (response : value) (e : exn) :
  reply_text response = Raise e -> is_Exception e = true.
Proof.
  unfold reply_text.
  destruct (Py.getitem response "message") as [message|e'] eqn:Hm.
  - apply getitem_raises_Exception.
  - intros H; injection H as <-. eapply getitem_raises_Exception, Hm.
Qed.

(** C7, as the code has it.  Single-shot generation makes one chat call.  An
    exception of class [Exception] raised by the call, or by reading
    [['message']['content']] from the reply, is logged and turned into
    [None]; a reply that has the text is returned as that text, with nothing
    logged.  An exception outside [Exception] (Ctrl-C, [SystemExit]) is not
    caught and reaches the caller. *)
Theorem single_shot_outcomes :
  forall (w : world) (h : history) (model_name prompt : string)
         (max_length : Z) (temperature : spec_float),
    let req := chat_options model_name prompt max_length temperature false in
    let result :=
      generate_text_ollama_lib model_name prompt max_length temperature w h in
    match ollama_chat w h req with
    | Raise e =>
        if is_Exception e
        then result = ([Chat req; generation_error e], Ret VNone)
        else result = ([Chat req], Raise e)
    | Ret response =>
        match reply_text response with
        | Ret content => result = ([Chat req], Ret content)
        | Raise e => result = ([Chat req; generation_error e], Ret VNone)
        end
    end.
Proof.
  intros w h model_name prompt ml t req result. subst result.
  unfold generate_text_ollama_lib. unfold_monad. fold req.
  destruct (ollama_chat w h req) as [response|e]; unfold_monad.
  - pose proof (reply_text_raises_Exception response) as Hexc.
    unfold reply_text in *.
    destruct (Py.getitem response "message") as [message|e]; unfold_monad.
    + destruct (Py.getitem message "content") as [content|e]; [reflexivity|].
      now rewrite (Hexc e eq_refl).
    + now rewrite (Hexc e eq_refl).
  - destruct (is_Exception e); reflexivity.
Qed.

(** C7, as stated, fails: interrupted during the chat call, single-shot
    generation returns nothing and logs nothing; [KeyboardInterrupt] goes on
    to its caller. *)
Lemma single_shot_interrupt_propagates :
  generate_text_ollama_lib "llama3" "hi" 512 Float.f0_7 interrupted []
  = ([Chat (chat_options "llama3" "hi" 512 Float.f0_7 false)],
     Raise KeyboardInterrupt).
Proof. reflexivity. Qed.

Lemma consume_no_walk (cs : list value) (stop : option exn) (full : string) :
  emits no_walk (consume cs stop full).
Proof.
  revert full. induction cs as [|chunk rest IH]; intros full; simpl;
    unfold print_end; searchless; apply IH.
Qed.

Lemma generate_text_ollama_lib_no_walk (model_name prompt : string)
    (ml : Z) (t : spec_float) :
  emits no_walk (generate_text_ollama_lib model_name prompt ml t).
Proof. unfold generate_text_ollama_lib, print. searchless. Qed.

Lemma generate_text_streaming_ollama_lib_no_walk (model_name prompt : string)
    (ml : Z) (t : spec_float) :
  emits no_walk (generate_text_streaming_ollama_lib model_name prompt ml t).
Proof.
  unfold generate_text_streaming_ollama_lib, print, print_end.
  searchless. apply consume_no_walk.
Qed.

(** Single-shot generation against a healthy daemon and against none. *)
Example single_shot_examples :
  generate_text_ollama_lib "llama3" "hi" 512 Float.f0_7 (daemon [] completed) []
  = ([Chat (chat_options "llama3" "hi" 512 Float.f0_7 false)],
     Ret (VStr "Hello"))
  /\ generate_text_ollama_lib "llama3" "hi" 512 Float.f0_7 offline []
     = ([Chat (chat_options "llama3" "hi" 512 Float.f0_7 false);
         generation_error (OtherException "Failed to connect to Ollama")],
        Ret VNone).
Proof. split; reflexivity. Qed.

(** Streaming generation of a reply in two fragments. *)
Example streaming_example :
  generate_text_streaming_ollama_lib "llama3" "hi" 512 Float.f0_7
    (daemon [] completed) []
  = ([Print [FS "Response: "] "";
      Chat (chat_options "llama3" "hi" 512 Float.f0_7 true);
      shown "Hel"; shown "lo"; Print [] Str.nl],
     Ret (VStr "Hello")).
Proof. reflexivity. Qed.

(** ** The setup resolver *)

(** C3.  With the daemon reachable and the requested name in its listing,
    the resolver returns [True]; besides its output it makes the two
    read-only requests and nothing else: no pull, no create, no local
    registration. *)
Theorem resolver_present_model_untouched :
  forall (w : world) (h : history) (client model_name : string)
         (huggingface_model gguf_path : option string) (names : list value),
    snd (OllamaClient.check_ollama_running client w h) = Ret true ->
    snd (OllamaClient.list_models client w
           (h ++ [HttpGet (client ++ "/api/tags") (Some 5)])%list) = Ret names ->
    existsb (Py.is_str model_name) names = true ->
    let result :=
      check_and_setup_model client model_name huggingface_model gguf_path w h in
    snd result = Ret (Some true)
    /\ calls (fst result) = probes client
    /\ existsb is_mutation (fst result) = false.
Proof.
  intros w h client model_name hf gguf names Hrun Hlist Hin result.
  assert (snd result = Ret (Some true) /\ calls (fst result) = probes client)
    as [Hres Hcalls].
  { subst result. unfold check_and_setup_model.
    rewrite bind_run, Hrun, check_ollama_running_calls. simpl.
    rewrite bind_run, Hlist. simpl.
    rewrite bind_run. simpl. rewrite Hin. simpl.
    split; [reflexivity|].
    change (?a :: ?l ++ ?r)%list with ([a] ++ l ++ r)%list.
    rewrite !calls_app, list_models_calls. reflexivity. }
  repeat split; try assumption.
  rewrite mutation_calls, Hcalls. reflexivity.
Qed.
(** The spec's example: model [x], listing [[x]]. *)
Lemma resolver_present_model_untouched_witness :
  let w := daemon ["x"] completed in
  let result := check_and_setup_model "http://localhost:11434" "x" None None w [] in
  snd result = Ret (Some true)
  /\ calls (fst result) = probes "http://localhost:11434"
  /\ existsb is_mutation (fst result) = false.
Proof.
  apply (resolver_present_model_untouched (daemon ["x"] completed) []
           "http://localhost:11434" "x" None None [VStr "x"]);
    reflexivity.
Defined.

(** C1.  With the daemon reachable and the requested name absent from its
    listing, the resolver takes the first acquisition path that applies, in
    the order local file, remote reference, registry pull: after the two
    probes it checks and registers the local file (and posts nothing), or
    posts one create request built from the remote reference, or posts one
    pull request for the requested name.  A path or a reference is supplied
    when Python finds it truthy: neither [None] nor empty. *)
Theorem resolver_priority_order :
  forall (w : world) (h : history) (client model_name : string)
         (huggingface_model gguf_path : option string) (names : list value),
    snd (OllamaClient.check_ollama_running client w h) = Ret true ->
    snd (OllamaClient.list_models client w
           (h ++ [HttpGet (client ++ "/api/tags") (Some 5)])%list) = Ret names ->
    existsb (Py.is_str model_name) names = false ->
    let trace :=
      fst (check_and_setup_model client model_name huggingface_model
             gguf_path w h) in
    match preferred huggingface_model gguf_path with
    | LocalRegistration =>
        let folder := PosixPath.dirname (Py.text gguf_path) in
        let file := PosixPath.basename (Py.text gguf_path) in
        exists written : bool,
          calls trace =
          (probes client
           ++ IsFile (PosixPath.join folder file)
           :: (if written then registration_steps folder file model_name
               else []))%list
    | CustomCreation =>
        calls trace =
        (probes client
         ++ [HttpPost (client ++ "/api/create")
               (VDict [("name", VStr model_name);
                       ("modelfile",
                        VStr (OllamaClient.modelfile_content
                                (Py.text huggingface_model)))])])%list
    | RegistryPull =>
        calls trace =
        (probes client
         ++ [HttpPost (client ++ "/api/pull")
               (VDict [("name", VStr model_name)])])%list
    end.
Proof.
  intros w h client model_name hf gguf names Hrun Hlist Hin trace.
  subst trace. unfold check_and_setup_model, preferred.
  rewrite bind_run, Hrun, check_ollama_running_calls. simpl.
  rewrite bind_run, Hlist. simpl.
  rewrite bind_run. simpl. rewrite Hin.
  change (?a :: (?l ++ ?r) ++ ?s)%list with ([a] ++ (l ++ r) ++ s)%list.
  rewrite !calls_app, list_models_calls. simpl calls at 1 2.
  destruct (Py.truthy_opt gguf).
  - rewrite bind_run. simpl. rewrite bind_run.
    match goal with
    | |- context [register_gguf_model ?f ?g ?n w ?h'] =>
        destruct (register_gguf_model_calls f g n w h') as [written Hreg];
        destruct (register_gguf_model f g n w h') as [t [r|e]]
    end; simpl in Hreg |- *; exists written;
      rewrite ?app_nil_r, Hreg; reflexivity.
  - destruct (Py.truthy_opt hf); rewrite bind_run; simpl.
    + now rewrite create_custom_model_calls.
    + now rewrite pull_model_calls.
Qed.

(** The spec's example: model [y], no file, no reference, empty listing. *)
Lemma resolver_priority_order_witness :
  let w := daemon [] completed in
  calls (fst (check_and_setup_model "http://localhost:11434" "y" None None w []))
  = (probes "http://localhost:11434"
     ++ [HttpPost "http://localhost:11434/api/pull"
           (VDict [("name", VStr "y")])])%list.
Proof.
  apply (resolver_priority_order (daemon [] completed) []
           "http://localhost:11434" "y" None None []);
    reflexivity.
Defined.

Lemma check_and_setup_model_no_walk (client model_name : string)
    (hf gguf : option string) :
  emits no_walk (check_and_setup_model client model_name hf gguf).
Proof.
  unfold check_and_setup_model, OllamaClient.check_ollama_running,
    OllamaClient.list_models, OllamaClient.create_custom_model,
    OllamaClient.pull_model, register_gguf_model, print.
  searchless.
  all: try (intros w h; unfold session_get, session_post, isfile, write_file, run;
       simpl; try destruct (open_write _ _ _ _); reflexivity).
  all: apply watch_no_walk.
Qed.

(** Without a daemon the resolver stops after the probe. *)
Example resolver_offline :
  check_and_setup_model "http://localhost:11434" "y" None None offline []
  = ([HttpGet "http://localhost:11434/api/tags" (Some 5);
      Print [FS "Error: Ollama is not running!"] Str.nl;
      Print [FS "Please start Ollama first by running: ollama serve"] Str.nl],
     Ret (Some false)).
Proof. reflexivity. Qed.

(** A local file wins over a remote reference. *)
Example resolver_prefers_local_file :
  calls (fst (check_and_setup_model "http://localhost:11434" "gemma"
                (Some "mlabonne/gemma") (Some "/models/gemma/model.gguf")
                (daemon [] completed) []))
  = (probes "http://localhost:11434"
     ++ IsFile "/models/gemma/model.gguf"
     :: registration_steps "/models/gemma" "model.gguf" "gemma")%list.
Proof. reflexivity. Qed.

(** ** The interactive loop *)

(** C8.  Given [help] and then [quit], the interactive loop prints its
    banner, prompts, prints the command list once, prompts again, says
    goodbye and leaves the loop; it sends no chat request, and whatever
    follows [quit] is never read.  A line that is empty once stripped only
    brings the next prompt: nothing is printed and no chat request is
    sent. *)
Theorem interactive_help_then_quit :
  forall (w : world) (h : history) (model_name : string)
         (rest : list (outcome string)),
    let result :=
      interactive_mode model_name (Ret "help" :: Ret "quit" :: rest) w h in
    result
    = ((banner ++ [Input "You: "] ++ command_list
        ++ [Input "You: "; Print [FS "Goodbye!"] Str.nl])%list,
       Ret Exited)
    /\ sent_requests (fst result) = []
    /\ (forall line h',
          Str.strip line = "" ->
          interactive_turn model_name (Ret line) w h'
          = ([Input "You: "], Ret Continue)).
Proof.
  intros w h model_name rest result.
  split; [reflexivity|]. split; [reflexivity|].
  intros line h' Hline. unfold interactive_turn. unfold_monad.
  rewrite Hline. reflexivity.
Qed.

(** Blank lines, then [QUIT] in capitals with a trailing space. *)
Example interactive_blank_lines :
  interactive_mode "llama3" [Ret ""; Ret "   "; Ret "QUIT "]
    (daemon [] completed) []
  = ((banner ++ [Input "You: "; Input "You: "; Input "You: ";
                 Print [FS "Goodbye!"] Str.nl])%list,
     Ret Exited).
Proof. reflexivity. Qed.

(** Any other line is a prompt for streaming generation. *)
Example interactive_chat_turn :
  interactive_mode "llama3" [Ret "hi"] (daemon [] completed) []
  = ((banner
      ++ [Input "You: ";
          Print [FS "Generating response..."] Str.nl;
          Print [FS "Response: "] "";
          Chat (chat_options "llama3" "hi" 512 Float.f0_7 true);
          shown "Hel"; shown "lo";
          Print [] Str.nl])%list,
     Ret Reading).
Proof. reflexivity. Qed.

Lemma interactive_turn_no_walk (model_name : string) (typed : outcome string) :
  emits no_walk (interactive_turn model_name typed).
Proof.
  unfold interactive_turn, print.
  apply emits_try_; [|repeat constructor; intros ?; simpl; searchless].
  apply emits_bind; [intros w h; reflexivity|intros line].
  repeat match goal with
         | |- emits _ (if ?c then _ else _) => destruct c
         end;
    try solve [searchless].
  apply emits_bind; [searchless|intros _].
  apply emits_bind;
    [apply generate_text_streaming_ollama_lib_no_walk|intros response].
  searchless.
Qed.

Lemma interactive_mode_no_walk (model_name : string)
    (script : list (outcome string)) :
  emits no_walk (interactive_mode model_name script).
Proof.
  unfold interactive_mode, print. searchless.
  induction script as [|typed rest IH]; simpl; [searchless|].
  apply emits_bind; [apply interactive_turn_no_walk|intros c].
  destruct c; searchless.
Qed.

(** ** The entry point *)

Lemma main_setup_and_chat_no_walk (args : arguments)
    (gguf : option string) (script : list (outcome string)) :
  emits no_walk (main_setup_and_chat args gguf script).
Proof.
  unfold main_setup_and_chat, print.
  apply emits_bind; [apply check_and_setup_model_no_walk|intros ready].
  destruct (negb (Py.truthy (Py.of_flag ready))); [searchless|].
  apply emits_bind; [|intros _; apply interactive_mode_no_walk].
  destruct (Py.truthy_opt (prompt args)); [|searchless].
  apply emits_bind; [searchless|intros _].
  apply emits_bind; [apply generate_text_ollama_lib_no_walk|intros response].
  searchless.
Qed.

(** C9.  [main] searches the models directory in one case only: no explicit
    file path and the default model name.  Then the search comes first, and
    the file handed to the resolver is the first discovered file whose path
    contains the default name; with no such file the resolver gets what the
    command line gave.  In every other case [main] hands the resolver the
    command line's own value and never searches a directory. *)
Theorem main_discovery_only_for_default :
  forall (w : world) (h : history) (args : arguments)
         (script : list (outcome string)),
    if discovers args then
      exists log,
        main_gguf_path args w h
        = (Walk (models_dir args) :: log,
           Ret match find usable (discovered w h (models_dir args)) with
               | Some gguf_file => Some gguf_file
               | None => gguf_path args
               end)
        /\ Py.truthy_opt (gguf_path args) = false
        /\ forall gguf_file,
             find usable (discovered w h (models_dir args)) = Some gguf_file ->
             In gguf_file (discovered w h (models_dir args))
             /\ Str.contains gguf_file default_model = true
    else
      main_gguf_path args w h = ([], Ret (gguf_path args))
      /\ main args script w h
         = main_setup_and_chat args (gguf_path args) script w h
      /\ forallb no_walk (fst (main args script w h)) = true.
Proof.
  intros w h args script. unfold discovers.
  destruct (negb (Py.truthy_opt (gguf_path args))
            && (model args =? default_model)%string) eqn:Hcase.
  - apply andb_true_iff in Hcase as [Hpath Hmodel].
    apply negb_true_iff in Hpath.
    unfold main_gguf_path, find_gguf_files, default_model in *.
    rewrite Hpath, Hmodel. cbn [negb andb]. unfold_monad.
    fold (discovered w h (models_dir args)). fold default_model. fold usable.
    destruct (discovered w h (models_dir args)) as [|f fs] eqn:Hd.
    + exists []. split; [reflexivity|]. split; [reflexivity|].
      intros g Hg; discriminate.
    + destruct (find usable (f :: fs)) as [g|] eqn:Hfind; unfold_monad;
        eexists; (split; [reflexivity|]); (split; [reflexivity|]);
        intros g' Hg'; try discriminate.
      injection Hg' as <-. apply find_some in Hfind. exact Hfind.
  - assert (main_gguf_path args w h = ([], Ret (gguf_path args))) as Hskip.
    { unfold main_gguf_path, default_model in *. now rewrite Hcase. }
    assert (main args script w h
            = main_setup_and_chat args (gguf_path args) script w h) as Hmain.
    { unfold main. rewrite bind_run, Hskip. simpl. rewrite app_nil_r.
      now destruct (main_setup_and_chat _ _ _ w h). }
    repeat split; try assumption.
    rewrite Hmain. apply main_setup_and_chat_no_walk.
Qed.

(** The default command line in a stocked models directory. *)
Example main_discovers_default :
  main_gguf_path default_args stocked []
  = ([Walk "/Users/mattnevle/Models/huggingface";
      Print [FS "Found matching GGUF file: ";
             FS "/Users/mattnevle/Models/huggingface/gemma-3-4b-it-qat-abliterated/model.q4.gguf"]
        Str.nl],
     Ret (Some "/Users/mattnevle/Models/huggingface/gemma-3-4b-it-qat-abliterated/model.q4.gguf")).
Proof. reflexivity. Qed.

(** Only the [.gguf] files are found, each under its directory. *)
Example find_gguf_files_stocked :
  find_gguf_files "/models" stocked []
  = ([Walk "/models"],
     Ret ["/models/llama/llama3.gguf";
          "/models/gemma-3-4b-it-qat-abliterated/model.q4.gguf"]).
Proof. reflexivity. Qed.

(** * Further properties *)

(** ** The daemon client and the registrar *)

(** X1.  The liveness probe makes one [GET /api/tags] with a timeout of five
    seconds and prints nothing.  It answers [True] exactly when the daemon
    replies with status 200, and [False] for any other status and for a
    transport failure. *)
Theorem probe_true_iff_status_200 :
  forall (w : world) (h : history) (client : string),
    let result := OllamaClient.check_ollama_running client w h in
    let reply := http_get w h (client ++ "/api/tags") in
    fst result = [HttpGet (client ++ "/api/tags") (Some 5)]
    /\ (snd result = Ret true <->
        exists response, reply = Ret response /\ status_code response = 200)
    /\ (soft_failure reply = true -> snd result = Ret false).
Proof.
  intros w h client result reply. subst result reply.
  split; [apply check_ollama_running_calls|].
  unfold OllamaClient.check_ollama_running. unfold_monad.
  destruct (http_get w h _) as [response|e]; unfold_monad.
  - unfold soft_failure.
    destruct (Z.eqb_spec (status_code response) 200) as [Hs|Hs]; cbn [negb].
    + split; [|intros H; discriminate H]. split; [|reflexivity].
      intros _. now exists response.
    + split; [|reflexivity]. split; [intros H; discriminate H|].
      intros (r & H & Hr). injection H as <-. contradiction.
  - unfold soft_failure. destruct (is_RequestException e).
    + split; [|reflexivity]. split; [intros H; discriminate H|].
      intros (r & H & _). discriminate H.
    + split; [|intros H; discriminate H]. split; [intros H; discriminate H|].
      intros (r & H & _). discriminate H.
Qed.

(** X2.  When the file is not there, local registration stops at once: it says
    so and returns [False], having written no manifest and run no
    command. *)
Theorem registration_without_file :
  forall (w : world) (h : history) (model_folder gguf_filename model_name : string),
    os_path_isfile w h (PosixPath.join model_folder gguf_filename) = false ->
    register_gguf_model model_folder gguf_filename model_name w h
    = ([IsFile (PosixPath.join model_folder gguf_filename);
        Print [FS "GGUF file not found: ";
               FS (PosixPath.join model_folder gguf_filename)] Str.nl],
       Ret false).
Proof.
  intros w h folder file name Hfile.
  unfold register_gguf_model. unfold_monad. rewrite ?app_nil_r.
  rewrite Hfile. reflexivity.
Qed.

Lemma registration_without_file_witness :
  register_gguf_model "/models" "missing.gguf" "gemma" offline []
  = ([IsFile "/models/missing.gguf";
      Print [FS "GGUF file not found: "; FS "/models/missing.gguf"] Str.nl],
     Ret false).
Proof.
  apply (registration_without_file offline [] "/models" "missing.gguf" "gemma").
  reflexivity.
Defined.


(** X4.  When [ollama create] exits with an error, local registration prints
    the error with the command's captured output, returns [False], and
    leaves the manifest it wrote in place. *)
Theorem failed_import_leaves_manifest :
  forall (w : world) (h : history) (model_folder gguf_filename model_name : string)
         (msg out err : string),
    let modelfile := PosixPath.join model_folder "Modelfile" in
    let manifest := "FROM ./" ++ gguf_filename ++ Str.nl in
    let result := register_gguf_model model_folder gguf_filename model_name w h in
    os_path_isfile w h (PosixPath.join model_folder gguf_filename) = true ->
    open_write w (at_manifest h model_folder gguf_filename) modelfile manifest
    = None ->
    subprocess_run w (at_import h model_folder gguf_filename model_name)
      ["ollama"; "create"; model_name; "-f"; modelfile]
    = Some (CalledProcessError msg out err) ->
    snd result = Ret false
    /\ writes (fst result) = [(modelfile, manifest)]
    /\ exists before,
         fst result
         = (before
            ++ [Subprocess ["ollama"; "create"; model_name; "-f"; modelfile];
                Print [FS "Error registering model: ";
                       FE (CalledProcessError msg out err)] Str.nl;
                Print [FS "stdout: "; FS out] Str.nl;
                Print [FS "stderr: "; FS err] Str.nl])%list.
Proof.
  intros w h folder file name msg out err modelfile manifest result
    Hfile Hopen Hrun.
  subst result modelfile manifest.
  unfold register_gguf_model, at_import, at_manifest in *.
  unfold_monad. rewrite ?app_nil_r.
  rewrite Hfile. cbn [negb]. unfold_monad.
  rewrite <- ?app_assoc. cbn [app]. rewrite Hopen. unfold_monad.
  rewrite <- ?app_assoc. cbn [app].
  rewrite <- ?app_assoc in Hrun. cbn [app] in Hrun. rewrite Hrun.
  unfold_monad. cbn [is_CalledProcessError]. unfold_monad.
  cbn [app writes exn_stdout exn_stderr snd fst]. repeat split.
  eexists [_; _; _; _; _]. reflexivity.
Qed.

Lemma failed_import_leaves_manifest_witness :
  let result := register_gguf_model "/models" "model.gguf" "gemma" broken_import [] in
  snd result = Ret false
  /\ writes (fst result) = [("/models/Modelfile", "FROM ./model.gguf" ++ Str.nl)].
Proof.
  destruct (failed_import_leaves_manifest broken_import [] "/models" "model.gguf"
              "gemma" "Command returned non-zero exit status 1." ""
              "Error: invalid file magic" eq_refl eq_refl eq_refl)
    as (Hres & Hwrites & _).
  split; assumption.
Defined.
(** ** The resolver *)

(** X5.  When the liveness probe fails, the resolver tells the operator to
    start the daemon and returns [False]; it asks for no listing and starts
    no acquisition, whatever file or reference it was given. *)
Theorem resolver_stops_without_daemon :
  forall (w : world) (h : history) (client model_name : string)
         (huggingface_model gguf_path : option string),
    snd (OllamaClient.check_ollama_running client w h) = Ret false ->
    check_and_setup_model client model_name huggingface_model gguf_path w h
    = ([HttpGet (client ++ "/api/tags") (Some 5);
        Print [FS "Error: Ollama is not running!"] Str.nl;
        Print [FS "Please start Ollama first by running: ollama serve"] Str.nl],
       Ret (Some false)).
Proof.
  intros w h client model_name hf gguf Hdown.
  unfold check_and_setup_model.
  rewrite bind_run, Hdown, check_ollama_running_calls. reflexivity.
Qed.

Lemma resolver_stops_without_daemon_witness :
  check_and_setup_model "http://localhost:11434" "gemma"
    (Some "mlabonne/gemma") (Some "/models/model.gguf") offline []
  = ([HttpGet "http://localhost:11434/api/tags" (Some 5);
      Print [FS "Error: Ollama is not running!"] Str.nl;
      Print [FS "Please start Ollama first by running: ollama serve"] Str.nl],
     Ret (Some false)).
Proof.
  apply (resolver_stops_without_daemon offline [] "http://localhost:11434"
           "gemma" (Some "mlabonne/gemma") (Some "/models/model.gguf")).
  reflexivity.
Defined.

(** X6.  For a model that is not listed, the resolver announces the
    acquisition it prefers, runs it once, and hands its verdict through
    unchanged: what the resolver returns (or raises) is what the
    registration, the creation or the pull returned (or raised). *)
Theorem resolver_passes_verdict_through :
  forall (w : world) (h : history) (client model_name : string)
         (huggingface_model gguf_path : option string) (names : list value),
    let h1 := (h ++ [HttpGet (client ++ "/api/tags") (Some 5)])%list in
    let listing := OllamaClient.list_models client w h1 in
    let path := preferred huggingface_model gguf_path in
    let told := [Print [FS "Available models: "; FV (VList names)] Str.nl;
                 setting_out model_name path] in
    let acquired :=
      acquire client model_name huggingface_model gguf_path path w
        (h1 ++ fst listing ++ told)%list in
    snd (OllamaClient.check_ollama_running client w h) = Ret true ->
    snd listing = Ret names ->
    existsb (Py.is_str model_name) names = false ->
    check_and_setup_model client model_name huggingface_model gguf_path w h
    = ((HttpGet (client ++ "/api/tags") (Some 5) :: fst listing
        ++ told ++ fst acquired)%list,
       snd acquired).
Proof.
  intros w h client model_name hf gguf names h1 listing path told acquired
    Hrun Hlist Hin.
  subst acquired told path listing h1.
  unfold check_and_setup_model, preferred, acquire, setting_out.
  rewrite bind_run, Hrun, check_ollama_running_calls. simpl.
  rewrite bind_run, Hlist. simpl.
  rewrite bind_run. simpl. rewrite Hin.
  destruct (Py.truthy_opt gguf); [|destruct (Py.truthy_opt hf)];
    rewrite !bind_run; simpl; rewrite <- ?app_assoc; simpl;
    match goal with
    | |- context [register_gguf_model ?a ?b ?c w ?h'] =>
        destruct (register_gguf_model a b c w h') as [t [r|e]]
    | |- context [OllamaClient.create_custom_model ?a ?b ?c w ?h'] =>
        destruct (OllamaClient.create_custom_model a b c w h') as [t [r|e]]
    | |- context [OllamaClient.pull_model ?a ?b w ?h'] =>
        destruct (OllamaClient.pull_model a b w h') as [t [r|e]]
    end; simpl; rewrite <- ?app_assoc, ?app_nil_r; reflexivity.
Qed.

Lemma resolver_passes_verdict_through_witness :
  check_and_setup_model "http://localhost:11434" "y" None None
    (daemon [] success) []
  = ((probes "http://localhost:11434"
      ++ [Print [FS "Available models: "; FV (VList [])] Str.nl;
          setting_out "y" RegistryPull]
      ++ fst (OllamaClient.pull_model "http://localhost:11434" "y"
                (daemon [] success) []))%list,
     Ret None).
Proof.
  apply (resolver_passes_verdict_through (daemon [] success) []
           "http://localhost:11434" "y" None None []);
    reflexivity.
Defined.
(** ** File discovery *)






(** The files found in a stocked models directory, two levels down. *)
Example discovery_nested :
  walk_gguf "/m"
    (Dir [("a", Dir [("b", Dir [] ["deep.gguf"; "notes.txt"])] ["x.gguf.part"]);
          ("c", Dir [] [])]
         ["top.gguf"; "gguf"])
  = ["/m/top.gguf"; "/m/a/b/deep.gguf"].
Proof. reflexivity. Qed.
(** ** Listing and streamed transfers *)

Lemma names_of_listed (items names : list value) :
  Forall2 (fun item name => Py.getitem item "name" = Ret name) items names ->
  OllamaClient.names_of items = Ret names.
Proof.
  induction 1 as [|item name items names Hitem _ IH]; [reflexivity|].
  cbn [OllamaClient.names_of]. now rewrite Hitem, IH.
Qed.

Lemma names_of_nameless (before after : list value) (names : list value)
    (entry : list (string * value)) :
  Forall2 (fun item name => Py.getitem item "name" = Ret name) before names ->
  Py.lookup "name" entry = None ->
  OllamaClient.names_of (before ++ VDict entry :: after)
  = Raise (KeyError "name").
Proof.
  intros Hbefore Hentry.
  induction Hbefore as [|item name items names' Hitem _ IH].
  - cbn [app OllamaClient.names_of Py.getitem]. now rewrite Hentry.
  - cbn [app OllamaClient.names_of]. cbn [app] in IH. now rewrite Hitem, IH.
Qed.

(** X8.  From a 200 reply whose body is an object with a ["models"] list,
    [list_models] returns the ["name"] of every entry, in listing order, after
    one request and without printing anything. *)
Theorem listing_names_in_order :
  forall (w : world) (h : history) (client : string) (response : response)
         (body : list (string * value)) (items names : list value),
    http_get w h (client ++ "/api/tags") = Ret response ->
    status_code response = 200 ->
    json response = Ret (VDict body) ->
    Py.lookup "models" body = Some (VList items) ->
    Forall2 (fun item name => Py.getitem item "name" = Ret name) items names ->
    OllamaClient.list_models client w h
    = ([HttpGet (client ++ "/api/tags") None], Ret names).
Proof.
  intros w h client response body items names Hget Hstatus Hjson Hmodels Hnames.
  unfold OllamaClient.list_models. unfold_monad.
  rewrite Hget. unfold_monad. rewrite Hstatus. cbn [Z.eqb Pos.eqb]. unfold_monad.
  rewrite Hjson. unfold_monad. cbn [Py.get]. rewrite Hmodels. unfold_monad.
  cbn [Py.iter]. unfold_monad. now rewrite (names_of_listed items names Hnames).
Qed.

Lemma listing_names_in_order_witness :
  OllamaClient.list_models "http://localhost:11434"
    (daemon ["llama3"; "gemma"] completed) []
  = ([HttpGet "http://localhost:11434/api/tags" None],
     Ret [VStr "llama3"; VStr "gemma"]).
Proof.
  eapply (listing_names_in_order (daemon ["llama3"; "gemma"] completed) []
            "http://localhost:11434");
    try reflexivity.
  repeat constructor.
Defined.

(** X9.  A 200 reply whose body is an object without a ["models"] key is read
    as an empty listing: [list_models] returns [[]] and prints nothing. *)
Theorem listing_without_models_key :
  forall (w : world) (h : history) (client : string) (response : response)
         (body : list (string * value)),
    http_get w h (client ++ "/api/tags") = Ret response ->
    status_code response = 200 ->
    json response = Ret (VDict body) ->
    Py.lookup "models" body = None ->
    OllamaClient.list_models client w h
    = ([HttpGet (client ++ "/api/tags") None], Ret []).
Proof.
  intros w h client response body Hget Hstatus Hjson Hmodels.
  unfold OllamaClient.list_models. unfold_monad.
  rewrite Hget. unfold_monad. rewrite Hstatus. cbn [Z.eqb Pos.eqb]. unfold_monad.
  rewrite Hjson. unfold_monad. cbn [Py.get]. rewrite Hmodels. reflexivity.
Qed.

Lemma listing_without_models_key_witness :
  OllamaClient.list_models "http://localhost:11434"
    {| http_get := fun _ _ =>
         Ret {| status_code := 200; json := Ret (VDict []);
                iter_lines := []; iter_lines_end := None |};
       http_post := http_post offline;
       os_path_isfile := os_path_isfile offline;
       open_write := open_write offline;
       subprocess_run := subprocess_run offline;
       os_walk := os_walk offline;
       ollama_chat := ollama_chat offline;
       ollama_chat_stream := ollama_chat_stream offline |} []
  = ([HttpGet "http://localhost:11434/api/tags" None], Ret []).
Proof.
  eapply listing_without_models_key; reflexivity.
Defined.

(** X10.  One listed entry without a ["name"] spoils the whole listing:
    [list_models] raises [KeyError] to its caller, even when the entries
    before it were well formed; the [except] clause does not cover it. *)
Theorem listing_entry_without_name :
  forall (w : world) (h : history) (client : string) (response : response)
         (body : list (string * value)) (before after names : list value)
         (entry : list (string * value)),
    http_get w h (client ++ "/api/tags") = Ret response ->
    status_code response = 200 ->
    json response = Ret (VDict body) ->
    Py.lookup "models" body = Some (VList (before ++ VDict entry :: after)) ->
    Forall2 (fun item name => Py.getitem item "name" = Ret name) before names ->
    Py.lookup "name" entry = None ->
    OllamaClient.list_models client w h
    = ([HttpGet (client ++ "/api/tags") None], Raise (KeyError "name")).
Proof.
  intros w h client response body before after names entry
    Hget Hstatus Hjson Hmodels Hbefore Hentry.
  unfold OllamaClient.list_models. unfold_monad.
  rewrite Hget. unfold_monad. rewrite Hstatus. cbn [Z.eqb Pos.eqb]. unfold_monad.
  rewrite Hjson. unfold_monad. cbn [Py.get]. rewrite Hmodels. unfold_monad.
  cbn [Py.iter]. unfold_monad.
  now rewrite (names_of_nameless before after names entry Hbefore Hentry).
Qed.

Lemma listing_entry_without_name_witness :
  OllamaClient.list_models "http://localhost:11434" nameless []
  = ([HttpGet "http://localhost:11434/api/tags" None], Raise (KeyError "name")).
Proof.
  eapply (listing_entry_without_name nameless [] "http://localhost:11434" _ _
            [VDict [("name", VStr "llama3")]] [] [VStr "llama3"]
            [("size", VInt 7)]);
    try reflexivity.
  repeat constructor.
Defined.
Lemma watch_passes_over (done : string) (before rest : list line)
    (stop : option exn) (w : world) (h : history) :
  forallb unfinished before = true ->
  OllamaClient.watch done (before ++ rest) stop w h
  = ((status_log before
      ++ fst (OllamaClient.watch done rest stop w (h ++ status_log before)))%list,
     snd (OllamaClient.watch done rest stop w (h ++ status_log before)%list)).
Proof.
  revert h. induction before as [|l before IH]; intros h Hall.
  - cbn [app status_log]. rewrite app_nil_r.
    now destruct (OllamaClient.watch done rest stop w h).
  - cbn [forallb] in Hall. apply andb_true_iff in Hall as [Hl Hall].
    destruct l as [|[[]|e]]; try discriminate.
    + cbn [app OllamaClient.watch status_log]. now apply IH.
    + cbn [unfinished] in Hl. cbn [app OllamaClient.watch status_log].
      unfold_monad. unfold Py.contains, Py.getitem, Py.has_key in *.
      destruct (Py.lookup "status" d) as [status|]; unfold_monad.
      * rewrite ?app_nil_r. rewrite (IH _ Hall).
        rewrite <- !app_assoc. reflexivity.
      * destruct (Py.lookup "completed_at" d); [discriminate|]. unfold_monad.
        rewrite ?app_nil_r. now rewrite (IH _ Hall).
Qed.

(** X11.  A transfer ends at the first streamed event that has
    ["completed_at"] and no ["status"]: the statuses met so far have been
    printed in order, the success message follows, and the result is [True].
    Nothing after that event is read, so neither later lines nor a stream
    that breaks off afterwards can change the result. *)
Theorem transfer_ends_at_first_completion :
  forall (w : world) (h : history) (client : string) (t : transfer)
         (response : response) (before after : list line)
         (event : list (string * value)),
    posted w h client t = Ret response ->
    status_code response = 200 ->
    iter_lines response = (before ++ DataLine (Ret (VDict event)) :: after)%list ->
    forallb unfinished before = true ->
    completes event = true ->
    transfer_run client t w h
    = ((announcement t ++ [HttpPost (post_url client t) (post_body t)]
        ++ status_log before ++ [Print [FS (done_message t)] Str.nl])%list,
       Ret (Some true)).
Proof.
  intros w h client t response before after event
    Hpost Hstatus Hlines Hbefore Hevent.
  apply andb_true_iff in Hevent as [Hs Hc]. apply negb_true_iff in Hs.
  assert (forall done h',
            OllamaClient.watch done (iter_lines response)
              (iter_lines_end response) w h'
            = ((status_log before ++ [Print [FS done] Str.nl])%list,
               Ret (Some true))) as Hwatch.
  { intros done h'. rewrite Hlines, (watch_passes_over _ _ _ _ _ _ Hbefore).
    cbn [OllamaClient.watch]. unfold_monad. cbn [Py.contains].
    rewrite Hs. unfold_monad. rewrite Hc. reflexivity. }
  destruct t as [model_name|model_name hf];
    unfold transfer_run, posted, OllamaClient.pull_model,
      OllamaClient.create_custom_model in *;
    cbn [announcement post_url post_body done_message] in *; unfold_monad;
    rewrite ?app_nil_r; rewrite <- ?app_assoc; cbn [app];
    rewrite Hpost; unfold_monad; rewrite Hstatus; cbn [Z.eqb Pos.eqb];
    rewrite Hwatch; reflexivity.
Qed.

Lemma transfer_ends_at_first_completion_witness :
  OllamaClient.pull_model "http://localhost:11434" "y" (daemon [] completed) []
  = ((announcement (Pull "y")
      ++ [HttpPost "http://localhost:11434/api/pull" (VDict [("name", VStr "y")])]
      ++ [Print [FS "Status: "; FV (VStr "pulling manifest")] Str.nl]
      ++ [Print [FS "Model pulled successfully!"] Str.nl])%list,
     Ret (Some true)).
Proof.
  apply (transfer_ends_at_first_completion (daemon [] completed) []
           "http://localhost:11434" (Pull "y") (progress completed)
           [DataLine (Ret (VDict [("status", VStr "pulling manifest")]));
            EmptyLine]
           [] [("completed_at", VStr "2025-01-01T00:00:00Z")]);
    reflexivity.
Defined.

(** X12.  When the stream breaks off with a transport failure before any
    completing event, a transfer prints the statuses it has seen, logs the
    failure and returns [False]: a broken stream is a soft failure like a
    refused connection. *)
Theorem transfer_broken_stream :
  forall (w : world) (h : history) (client : string) (t : transfer)
         (response : response) (e : exn),
    posted w h client t = Ret response ->
    status_code response = 200 ->
    forallb unfinished (iter_lines response) = true ->
    iter_lines_end response = Some e ->
    is_RequestException e = true ->
    transfer_run client t w h
    = ((announcement t ++ [HttpPost (post_url client t) (post_body t)]
        ++ status_log (iter_lines response)
        ++ failure_log (Transfer t) (Raise e))%list,
       Ret (Some false)).
Proof.
  intros w h client t response e Hpost Hstatus Hlines Hend He.
  assert (forall done h',
            OllamaClient.watch done (iter_lines response)
              (iter_lines_end response) w h'
            = (status_log (iter_lines response), Raise e)) as Hwatch.
  { intros done h'.
    rewrite <- (app_nil_r (iter_lines response)) at 1.
    rewrite (watch_passes_over _ _ _ _ _ _ Hlines), Hend.
    cbn [OllamaClient.watch raise fst snd]. now rewrite app_nil_r. }
  destruct t as [model_name|model_name hf];
    unfold transfer_run, posted, OllamaClient.pull_model,
      OllamaClient.create_custom_model in *;
    cbn [announcement post_url post_body failure_log] in *; unfold_monad;
    rewrite ?app_nil_r; rewrite <- ?app_assoc; cbn [app];
    rewrite Hpost; unfold_monad; rewrite Hstatus; cbn [Z.eqb Pos.eqb];
    rewrite Hwatch; unfold_monad; rewrite He; unfold_monad;
    rewrite <- ?app_assoc; reflexivity.
Qed.

Lemma transfer_broken_stream_witness :
  OllamaClient.pull_model "http://localhost:11434" "y" flaky []
  = ((announcement (Pull "y")
      ++ [HttpPost "http://localhost:11434/api/pull" (VDict [("name", VStr "y")])]
      ++ [Print [FS "Status: "; FV (VStr "pulling manifest")] Str.nl]
      ++ [Print [FS "Error pulling model: ";
                 FE (RequestException "Connection broken")] Str.nl])%list,
     Ret (Some false)).
Proof.
  apply (transfer_broken_stream flaky [] "http://localhost:11434" (Pull "y")
           {| status_code := 200;
              json := Raise (ValueError "Extra data");
              iter_lines :=
                [DataLine (Ret (VDict [("status", VStr "pulling manifest")]))];
              iter_lines_end := Some (RequestException "Connection broken") |}
           (RequestException "Connection broken"));
    reflexivity.
Defined.
(** ** Generation *)

Lemma clamp_inside (t : spec_float) :
  Float.le Float.f0_1 t = true -> Float.le t Float.f2_0 = true ->
  Float.max Float.f0_1 (Float.min Float.f2_0 t) = t.
Proof.
  unfold Float.le, SFleb, Float.min, Float.max, Float.lt, SFltb.
  intros Hlo Hhi.
  assert ((if match SFcompare t Float.f2_0 with Some Lt => true | _ => false end
           then t else Float.f2_0) = t) as ->.
  { destruct (SFcompare t Float.f2_0) as [[]|] eqn:C; try discriminate;
      [|reflexivity].
    symmetry. now apply SFcompare_Eq_finite. }
  destruct (SFcompare Float.f0_1 t) as [[]|] eqn:C; try discriminate;
    [|reflexivity].
  rewrite SFcompare_antisym in C.
  destruct (SFcompare t Float.f0_1) as [[]|] eqn:C'; try discriminate.
  symmetry. now apply SFcompare_Eq_finite.
Qed.

(** X13.  A temperature inside [0.1, 2.0] and a length of at most 2048 reach
    the daemon unchanged, from either generation function; the length has no
    lower bound, so zero and negative lengths are sent as they are.  The
    request names the model, carries the prompt as its single user message,
    and asks for streaming exactly in the streaming function. *)
Theorem in_range_options_unchanged :
  forall (streaming : bool) (w : world) (h : history)
         (model_name prompt : string) (max_length : Z)
         (temperature : spec_float),
    Float.le Float.f0_1 temperature = true ->
    Float.le temperature Float.f2_0 = true ->
    max_length <= 2048 ->
    exists req,
      sent_requests
        (fst (generate streaming model_name prompt max_length temperature w h))
      = [req]
      /\ opt_temperature req = temperature
      /\ opt_num_predict req = max_length
      /\ chat_model req = model_name
      /\ chat_messages req = [("user", prompt)]
      /\ chat_stream req = streaming.
Proof.
  intros streaming w h model_name prompt ml t Hlo Hhi Hml.
  exists (chat_options model_name prompt ml t streaming). split.
  - destruct streaming; cbn [generate];
      [apply streaming_sends_once | apply single_shot_sends_once].
  - cbn [chat_options opt_temperature opt_num_predict chat_model
           chat_messages chat_stream].
    rewrite (clamp_inside t Hlo Hhi), int_min_spec.
    repeat split. lia.
Qed.

Lemma in_range_options_unchanged_witness :
  exists req,
    sent_requests
      (fst (generate true "llama3" "hi" (-1) Float.f0_7 (daemon [] completed) []))
    = [req]
    /\ opt_temperature req = Float.f0_7
    /\ opt_num_predict req = -1
    /\ chat_model req = "llama3"
    /\ chat_messages req = [("user", "hi")]
    /\ chat_stream req = true.
Proof.
  apply (in_range_options_unchanged true (daemon [] completed) [] "llama3" "hi"
           (-1) Float.f0_7);
    [reflexivity | reflexivity | lia].
Defined.

Lemma consume_broken (cs : list value) (fs : list string) (e : exn)
    (full : string) (w : world) (h : history) :
  fragments cs = Some fs ->
  consume cs (Some e) full w h = (map shown fs, Raise e).
Proof.
  revert fs full h. induction cs as [|chunk rest IH]; intros fs full h Hfs.
  - injection Hfs as <-. reflexivity.
  - cbn [fragments] in Hfs. cbn [consume]. unfold_monad.
    destruct (Py.getitem chunk "message") as [message|]; [|discriminate].
    unfold_monad.
    destruct (Py.getitem message "content") as [[]|]; try discriminate.
    destruct (fragments rest) as [fs'|]; [|discriminate].
    injection Hfs as <-. unfold_monad. cbn [str_add]. unfold_monad.
    now rewrite (IH fs' _ _ eq_refl).
Qed.

(** X14.  When the streamed reply breaks off with an exception, streaming
    generation logs it and returns [None]: the fragments that arrived before
    were shown to the operator, but none of their text is returned. *)
Theorem streaming_broken_reply_returns_nothing :
  forall (w : world) (h : history) (model_name prompt : string)
         (max_length : Z) (temperature : spec_float)
         (reply : chat_chunks) (fs : list string) (e : exn),
    let req := chat_options model_name prompt max_length temperature true in
    ollama_chat_stream w (h ++ [Print [FS "Response: "] ""])%list req = Ret reply ->
    fragments (chunks reply) = Some fs ->
    chunks_end reply = Some e ->
    is_Exception e = true ->
    generate_text_streaming_ollama_lib model_name prompt max_length temperature w h
    = (([Print [FS "Response: "] ""; Chat req]
        ++ map shown fs ++ [generation_error e])%list,
       Ret VNone).
Proof.
  intros w h model_name prompt ml t reply fs e req Hreply Hfs Hend He.
  unfold generate_text_streaming_ollama_lib. unfold_monad. fold req.
  rewrite !app_nil_r, Hreply. unfold_monad.
  rewrite Hend, (consume_broken _ fs e "" w _ Hfs). unfold_monad.
  rewrite He. unfold_monad. unfold generation_error.
  cbn [app]. rewrite <- ?app_assoc. reflexivity.
Qed.

Lemma streaming_broken_reply_returns_nothing_witness :
  generate_text_streaming_ollama_lib "llama3" "hi" 512 Float.f0_7 cut_off []
  = ([Print [FS "Response: "] "";
      Chat (chat_options "llama3" "hi" 512 Float.f0_7 true);
      shown "Hel";
      generation_error (ResponseError "unexpected EOF")],
     Ret VNone).
Proof.
  apply (streaming_broken_reply_returns_nothing cut_off [] "llama3" "hi" 512
           Float.f0_7
           {| chunks := [chunk_of "Hel"];
              chunks_end := Some (ResponseError "unexpected EOF") |}
           ["Hel"] (ResponseError "unexpected EOF"));
    reflexivity.
Defined.
(** ** The interactive loop *)

Lemma interactive_turn_escapes (model_name : string) (typed : outcome string)
    (w : world) (h : history) (e : exn) :
  snd (interactive_turn model_name typed w h) = Raise e ->
  is_Exception e = false /\ is_KeyboardInterrupt e = false.
Proof.
  unfold interactive_turn, try_.
  match goal with
  | |- context [let (_, _) := ?m w h in _] => destruct (m w h) as [t1 [c|e']]
  end; [discriminate|].
  cbn [find_clause].
  destruct (is_KeyboardInterrupt e') eqn:Hk; [unfold_monad; discriminate|].
  destruct (is_Exception e') eqn:He; [unfold_monad; discriminate|].
  cbn [snd]. intros H; injection H as <-. auto.
Qed.

(** X15.  Nothing that goes wrong during a turn ends the interactive loop with
    an error: an exception of class [Exception] is reported and the loop goes
    on, Ctrl-C ends it with a farewell.  Only an exception outside both
    ([SystemExit]) can leave [interactive_mode]. *)
Theorem interactive_mode_survives_errors :
  forall (w : world) (h : history) (model_name : string)
         (script : list (outcome string)) (e : exn),
    snd (interactive_mode model_name script w h) = Raise e ->
    is_Exception e = false /\ is_KeyboardInterrupt e = false.
Proof.
  intros w h model_name script e.
  unfold interactive_mode. unfold_monad.
  match goal with
  | |- context [interactive_loop model_name script w ?h'] =>
      generalize h'; intros h0
  end.
  intros H.
  assert (snd (interactive_loop model_name script w h0) = Raise e) as Hloop.
  { destruct (interactive_loop model_name script w h0) as [t r]. exact H. }
  clear H. revert h0 Hloop.
  induction script as [|typed rest IH]; intros h0; cbn [interactive_loop].
  - discriminate.
  - rewrite bind_run.
    destruct (snd (interactive_turn model_name typed w h0)) as [[]|e'] eqn:Hturn.
    + discriminate.
    + cbn [snd]. apply IH.
    + cbn [snd]. intros H; injection H as <-.
      eapply interactive_turn_escapes, Hturn.
Qed.

Lemma interactive_mode_survives_errors_witness :
  let script := [Raise EOFError; Raise (SystemExit 0); Ret "quit"] in
  snd (interactive_mode "llama3" script offline []) = Raise (SystemExit 0)
  /\ is_Exception (SystemExit 0) = false
  /\ is_KeyboardInterrupt (SystemExit 0) = false.
Proof.
  split; [reflexivity|].
  apply (interactive_mode_survives_errors offline [] "llama3"
           [Raise EOFError; Raise (SystemExit 0); Ret "quit"] (SystemExit 0)).
  reflexivity.
Defined.

(** X16.  [quit] is recognised in any mix of upper and lower case and with
    blanks around it: the loop says goodbye and ends, and reads nothing that
    follows. *)
Theorem interactive_quit_in_any_case :
  forall (w : world) (h : history) (model_name line : string)
         (rest : list (outcome string)),
    Str.lower (Str.strip line) = "quit" ->
    interactive_loop model_name (Ret line :: rest) w h
    = ([Input "You: "; Print [FS "Goodbye!"] Str.nl], Ret Exited).
Proof.
  intros w h model_name line rest Hquit.
  cbn [interactive_loop]. unfold interactive_turn. unfold_monad.
  rewrite Hquit. reflexivity.
Qed.

Lemma interactive_quit_in_any_case_witness :
  interactive_loop "llama3" [Ret "  QuIt "; Ret "never read"] offline []
  = ([Input "You: "; Print [FS "Goodbye!"] Str.nl], Ret Exited).
Proof.
  apply (interactive_quit_in_any_case offline [] "llama3" "  QuIt "
           [Ret "never read"]).
  reflexivity.
Defined.

(** X17.  At the prompt, Ctrl-C ends the loop with a farewell on a fresh
    line.  Any exception of class [Exception] raised there, the end of the
    input among them, is only reported: the loop goes on to the next
    prompt. *)
Theorem interactive_prompt_failures :
  forall (w : world) (h : history) (model_name : string)
         (rest : list (outcome string)),
    interactive_loop model_name (Raise KeyboardInterrupt :: rest) w h
    = ([Input "You: "; Print [FS (Str.nl ++ "Goodbye!")] Str.nl], Ret Exited)
    /\ forall e,
         is_Exception e = true ->
         let report := [Input "You: "; Print [FS "Error: "; FE e] Str.nl] in
         let next := interactive_loop model_name rest w (h ++ report)%list in
         interactive_loop model_name (Raise e :: rest) w h
         = ((report ++ fst next)%list, snd next).
Proof.
  intros w h model_name rest. split; [reflexivity|].
  intros e He report next. subst next report.
  cbn [interactive_loop]. unfold interactive_turn. unfold_monad.
  assert (is_KeyboardInterrupt e = false) as Hk by (now destruct e).
  rewrite Hk, He. unfold_monad. rewrite <- ?app_assoc. cbn [app].
  now destruct (interactive_loop model_name rest w _).
Qed.

Example interactive_end_of_input :
  interactive_mode "llama3" [Raise EOFError; Raise EOFError] offline []
  = ((banner ++ [Input "You: "; Print [FS "Error: "; FE EOFError] Str.nl;
                 Input "You: "; Print [FS "Error: "; FE EOFError] Str.nl])%list,
     Ret Reading).
Proof. reflexivity. Qed.






(** ** The entry point *)

(** X21.  When the resolver does not return a truthy value ([False], or the
    [None] of a transfer that never saw its completing event), [main] prints
    that the setup failed and exits with status 1.  It has then sent no
    prompt and read no input: the operator's script plays no part. *)
Theorem main_exits_when_setup_fails :
  forall (w : world) (h : history) (args : arguments)
         (script : list (outcome string))
         (found_path : option string) (ready : option bool),
    let found := main_gguf_path args w h in
    let setup :=
      check_and_setup_model (ollama_url args) (model args)
        (main_huggingface_model args) found_path w (h ++ fst found)%list in
    snd found = Ret found_path ->
    snd setup = Ret ready ->
    Py.truthy (Py.of_flag ready) = false ->
    main args script w h
    = ((fst found ++ fst setup
        ++ [Print [FS "Failed to setup model. Exiting."] Str.nl])%list,
       Raise (SystemExit 1)).
Proof.
  intros w h args script found_path ready found setup Hfound Hsetup Hready.
  subst found setup. unfold main, main_setup_and_chat.
  rewrite bind_run, Hfound. rewrite bind_run, Hsetup. cbn [fst snd].
  rewrite Hready. cbn [negb]. rewrite bind_run. reflexivity.
Qed.

Lemma main_exits_when_setup_fails_witness :
  main default_args [Ret "hello"] offline []
  = ([Walk "/Users/mattnevle/Models/huggingface";
      HttpGet "http://localhost:11434/api/tags" (Some 5);
      Print [FS "Error: Ollama is not running!"] Str.nl;
      Print [FS "Please start Ollama first by running: ollama serve"] Str.nl;
      Print [FS "Failed to setup model. Exiting."] Str.nl],
     Raise (SystemExit 1)).
Proof.
  apply (main_exits_when_setup_fails offline [] default_args [Ret "hello"]
           None (Some false));
    reflexivity.
Defined.

(** X22.  After a successful setup and without a prompt on the command line
    (none, or an empty one), [main] goes straight into interactive mode:
    nothing is printed or sent in between, and [main] ends as the loop
    ends. *)
Theorem main_enters_interactive_mode :
  forall (w : world) (h : history) (args : arguments)
         (script : list (outcome string))
         (found_path : option string) (ready : option bool),
    let found := main_gguf_path args w h in
    let setup :=
      check_and_setup_model (ollama_url args) (model args)
        (main_huggingface_model args) found_path w (h ++ fst found)%list in
    let loop :=
      interactive_mode (model args) script w
        (h ++ fst found ++ fst setup)%list in
    snd found = Ret found_path ->
    snd setup = Ret ready ->
    Py.truthy (Py.of_flag ready) = true ->
    Py.truthy_opt (prompt args) = false ->
    main args script w h
    = ((fst found ++ fst setup ++ fst loop)%list, snd loop).
Proof.
  intros w h args script found_path ready found setup loop
    Hfound Hsetup Hready Hprompt.
  subst found setup loop. unfold main, main_setup_and_chat.
  rewrite bind_run, Hfound. rewrite bind_run, Hsetup. cbn [fst snd].
  rewrite Hready, Hprompt. cbn [negb]. rewrite bind_run.
  cbn [ret fst snd]. rewrite !app_nil_r, <- !app_assoc.
  now destruct (interactive_mode (model args) script w _).
Qed.

Lemma main_enters_interactive_mode_witness :
  main {| model := "x"; prompt := Some ""; max_length := 512;
          temperature := Float.f0_7; ollama_url := "http://localhost:11434";
          huggingface_model := None; gguf_path := None;
          models_dir := "/models" |}
       [Ret "quit"] (daemon ["x"] completed) []
  = (([HttpGet "http://localhost:11434/api/tags" (Some 5);
       HttpGet "http://localhost:11434/api/tags" None;
       Print [FS "Available models: "; FV (VList [VStr "x"])] Str.nl;
       Print [FS "Model "; FS "x"; FS " is already available!"] Str.nl]
      ++ banner ++ [Input "You: "; Print [FS "Goodbye!"] Str.nl])%list,
     Ret Exited).
Proof.
  apply (main_enters_interactive_mode (daemon ["x"] completed) []
           {| model := "x"; prompt := Some ""; max_length := 512;
              temperature := Float.f0_7; ollama_url := "http://localhost:11434";
              huggingface_model := None; gguf_path := None;
              models_dir := "/models" |}
           [Ret "quit"] None (Some true));
    reflexivity.
Defined.

(** X23.  With a prompt on the command line, [main] first sends it once,
    single-shot, with the command line's length and temperature, prints the
    reply (or that generation failed) and a separator, and then enters
    interactive mode all the same: a failed one-shot generation does not
    stop the program. *)
Theorem main_one_shot_then_interactive :
  forall (w : world) (h : history) (args : arguments)
         (script : list (outcome string))
         (found_path : option string) (ready : option bool) (response : value),
    let found := main_gguf_path args w h in
    let setup :=
      check_and_setup_model (ollama_url args) (model args)
        (main_huggingface_model args) found_path w (h ++ fst found)%list in
    let asked :=
      Print [FS "Generating text for prompt: "; FS (Py.text (prompt args))]
        Str.nl in
    let shot :=
      generate_text_ollama_lib (model args) (Py.text (prompt args))
        (max_length args) (temperature args) w
        (h ++ fst found ++ fst setup ++ [asked])%list in
    let told := [one_shot_report response; Print [FS separator] Str.nl] in
    let loop :=
      interactive_mode (model args) script w
        (h ++ fst found ++ fst setup ++ [asked] ++ fst shot ++ told)%list in
    snd found = Ret found_path ->
    snd setup = Ret ready ->
    Py.truthy (Py.of_flag ready) = true ->
    Py.truthy_opt (prompt args) = true ->
    snd shot = Ret response ->
    main args script w h
    = ((fst found ++ fst setup ++ [asked] ++ fst shot ++ told ++ fst loop)%list,
       snd loop).
Proof.
  intros w h args script found_path ready response found setup asked shot
    told loop Hfound Hsetup Hready Hprompt Hshot.
  subst found setup loop told shot asked. unfold main, main_setup_and_chat.
  rewrite bind_run, Hfound. rewrite bind_run, Hsetup. cbn [fst snd].
  rewrite Hready, Hprompt. cbn [negb].
  rewrite !bind_run. cbn [print emit fst snd].
  rewrite <- !app_assoc in *. cbn [app] in *. rewrite Hshot.
  rewrite !bind_run. cbn [fst snd]. unfold one_shot_report.
  destruct (Py.truthy response); cbn [print emit fst snd];
    rewrite <- ?app_assoc; cbn [app]; rewrite <- ?app_assoc; cbn [app];
    now destruct (interactive_mode (model args) script w _).
Qed.

Lemma main_one_shot_then_interactive_witness :
  main {| model := "x"; prompt := Some "hi"; max_length := 4096;
          temperature := S754_finite false 3 0;
          ollama_url := "http://localhost:11434";
          huggingface_model := None; gguf_path := None;
          models_dir := "/models" |}
       [Ret "quit"] (daemon ["x"] completed) []
  = (([HttpGet "http://localhost:11434/api/tags" (Some 5);
       HttpGet "http://localhost:11434/api/tags" None;
       Print [FS "Available models: "; FV (VList [VStr "x"])] Str.nl;
       Print [FS "Model "; FS "x"; FS " is already available!"] Str.nl;
       Print [FS "Generating text for prompt: "; FS "hi"] Str.nl;
       Chat (chat_options "x" "hi" 4096 (S754_finite false 3 0) false);
       Print [FS ("Generated text:" ++ Str.nl); FV (VStr "Hello")] Str.nl;
       Print [FS separator] Str.nl]
      ++ banner ++ [Input "You: "; Print [FS "Goodbye!"] Str.nl])%list,
     Ret Exited).
Proof.
  apply (main_one_shot_then_interactive (daemon ["x"] completed) []
           {| model := "x"; prompt := Some "hi"; max_length := 4096;
              temperature := S754_finite false 3 0;
              ollama_url := "http://localhost:11434";
              huggingface_model := None; gguf_path := None;
              models_dir := "/models" |}
           [Ret "quit"] None (Some true) (VStr "Hello"));
    reflexivity.
Defined.
